(** * LivyInteractiveSessionClient: a shallow embedding

    The client of [src/LivyInteractiveSessionClient.py] is one Python class
    whose methods talk to a Livy server through [requests] and wait with
    [time.sleep].  The embedding keeps that shape:

    - Python values (the decoded JSON bodies, the constructor arguments) are
      the inductive [pyval];
    - the instance [self] is its attribute dictionary, a [gmap string pyval],
      so that reading an attribute that was never assigned raises
      [AttributeError] as it does in Python;
    - the remote service is a deterministic function [server] of the events
      performed so far and of the request being sent;
    - every method is a computation in a small state-and-exception monad
      [M] over the pair (attribute dictionary, event trace);
    - [while True:] is iterated with fuel, the outcome [Pending] meaning
      that the loop is still polling when the fuel is spent. *)

From Stdlib Require Import ZArith String List Lia Floats.
From stdpp Require Import base option gmap strings pretty.

Local Open Scope Z_scope.
Local Open Scope string_scope.

(** ** Python values *)

(** What [json.loads] can produce, and what the caller passes for [config]
    and [jars].  A [dict] keeps its insertion order: it is an association
    list read from the front. *)
#[warnings="-register-all"]
Inductive pyval : Type :=
| PNone
| PBool (b : bool)
| PInt (n : Z)
| PFloat (x : float)
| PStr (s : string)
| PList (l : list pyval)
| PDict (d : list (string * pyval)).

(** The exceptions the methods can end with: the two classes the source
    raises itself, and the run-time errors of attribute access, subscripting
    and JSON decoding. *)
Inductive pyexc : Type :=
| Exception (msg : string)
| HTTPError (msg : string)
| AttributeError (attr : string)
| KeyError (key : string)
| TypeError
| JSONDecodeError.

Fixpoint dict_lookup (k : string) (d : list (string * pyval)) : option pyval :=
  match d with
  | [] => None
  | (k', v) :: d' => if String.eqb k k' then Some v else dict_lookup k d'
  end.

(** [v == "literal"]: only a [str] with the same characters is equal to a
    string literal. *)
Definition py_eq_str (v : pyval) (lit : string) : bool :=
  match v with
  | PStr s => String.eqb s lit
  | _ => false
  end.

(** [v in ("a", "b", ...)] for a tuple of string literals. *)
Definition py_in_strs (v : pyval) (lits : list string) : bool :=
  existsb (py_eq_str v) lits.

(** ** The HTTP transport and the clock *)

Inductive http_method : Type := POST | GET | DELETE.

Record request : Type := mkRequest {
  rq_method : http_method;
  rq_url : string;
  rq_data : option string;
  rq_headers : pyval
}.

(** A [requests.Response]: the status code, and the decoded body ([None]
    when [r.json()] cannot decode it). *)
Record response : Type := mkResponse {
  status_code : Z;
  json_body : option pyval
}.

Inductive event : Type :=
| Http (rq : request) (rs : response)
| Sleep (secs : Z).

(** [requests.codes.created] and [requests.codes.ok]. *)
Definition codes_created : Z := 201.
Definition codes_ok : Z := 200.

(** ** The monad *)

Inductive outcome (A : Type) : Type :=
| Returned (a : A)
| Raised (e : pyexc)
| Pending.
Arguments Returned {A} a.
Arguments Raised {A} e.
Arguments Pending {A}.

Record world : Type := mkWorld {
  self : gmap string pyval;
  trace : list event
}.

(** The world after one more event. *)
Definition log (e : event) (w : world) : world :=
  {| self := self w; trace := trace w ++ [e] |}.

Definition M (A : Type) : Type := world -> outcome A * world.

Definition ret {A} (a : A) : M A := fun w => (Returned a, w).

Definition raise {A} (e : pyexc) : M A := fun w => (Raised e, w).

Definition bind {A B} (m : M A) (k : A -> M B) : M B :=
  fun w =>
    match m w with
    | (Returned a, w') => k a w'
    | (Raised e, w') => (Raised e, w')
    | (Pending, w') => (Pending, w')
    end.

Notation "'let*' x ':=' m 'in' k" := (bind m (fun x => k))
  (at level 10, x name, m at level 100, k at level 200).
Notation "m ';;' k" := (bind m (fun _ => k))
  (at level 100, k at level 200, right associativity).

(** [self.name] *)
Definition getattr (name : string) : M pyval :=
  fun w =>
    match self w !! name with
    | Some v => (Returned v, w)
    | None => (Raised (AttributeError name), w)
    end.

(** [self.name = v] *)
Definition setattr (name : string) (v : pyval) : M unit :=
  fun w => (Returned tt, {| self := <[name := v]> (self w); trace := trace w |}).

(** [time.sleep(secs)] *)
Definition sleep (secs : Z) : M unit :=
  fun w => (Returned tt, log (Sleep secs) w).

(** [r.json()] *)
Definition json (r : response) : M pyval :=
  match json_body r with
  | Some v => ret v
  | None => raise JSONDecodeError
  end.

(** [v[key]] for a string key: only a [dict] can be subscripted by one. *)
Definition getitem (v : pyval) (key : string) : M pyval :=
  match v with
  | PDict d =>
      match dict_lookup key d with
      | Some x => ret x
      | None => raise (KeyError key)
      end
  | _ => raise TypeError
  end.

(** [v.get(key)]: of the values here only a [dict] has a [get] method. *)
Definition get (v : pyval) (key : string) : M pyval :=
  match v with
  | PDict d => ret (default PNone (dict_lookup key d))
  | _ => raise (AttributeError "get")
  end.

(** [while True: body], where [body] yields [Some a] for [return a] and
    [None] when the iteration ends, by [continue] or by reaching the end of
    the block. *)
Fixpoint while_true {A} (fuel : nat) (body : M (option A)) : M A :=
  match fuel with
  | O => fun w => (Pending, w)
  | S fuel' =>
      let* r := body in
      match r with
      | Some a => ret a
      | None => while_true fuel' body
      end
  end.

(** ** The client *)

Section Client.

(** The remote service: its answer to a request, given everything the
    client has done so far (earlier requests with their answers, and the
    time slept). *)
Variable server : list event -> request -> response.

(** [json.dumps], and [repr] on the values whose [str] goes through it. *)
Variable json_dumps : pyval -> string.
Variable repr : pyval -> string.

(** [str(v)], as used by the [{...}] fields of an f-string. *)
Definition str (v : pyval) : string :=
  match v with
  | PStr s => s
  | PInt n => pretty n
  | PNone => "None"
  | PBool true => "True"
  | PBool false => "False"
  | _ => repr v
  end.

Definition send (rq : request) : M response :=
  fun w =>
    let rs := server (trace w) rq in
    (Returned rs, log (Http rq rs) w).

Definition requests_post (url data : string) (headers : pyval) : M response :=
  send (mkRequest POST url (Some data) headers).

Definition requests_get (url : string) (headers : pyval) : M response :=
  send (mkRequest GET url None headers).

Definition requests_delete (url : string) (headers : pyval) : M response :=
  send (mkRequest DELETE url None headers).

(** One iteration of the [while True:] of [create_session]. *)
Definition create_session_poll (session_id : pyval) : M (option pyval) :=
  let* livy_url := getattr "livy_url" in
  let* headers := getattr "headers" in
  let* req := requests_get (str livy_url +:+ "/sessions/" +:+ str session_id) headers in
  let* body := json req in
  let* session_state := get body "state" in
  if py_eq_str session_state "idle" then
    ret (Some session_id)
  else if py_in_strs session_state ["starting"; "not_started"] then
    sleep 15;;
    ret None
  else
    raise (Exception "Livy Error: Spark session initialization failed.").

Definition create_session (fuel : nat) : M pyval :=
  let* jars := getattr "jars" in
  let* config := getattr "config" in
  let data := PDict [("kind", PStr "spark"); ("proxyUser", PStr "hadoop");
                     ("jars", jars); ("conf", config)] in
  let* livy_url := getattr "livy_url" in
  let* headers := getattr "headers" in
  let* r := requests_post (str livy_url +:+ "/sessions") (json_dumps data) headers in
  if (status_code r =? codes_created)%Z then
    let* body := json r in
    let* session_id := getitem body "id" in
    while_true fuel (create_session_poll session_id)
  else
    raise (Exception ("Livy Error: Session Post API failed with status code "
                      +:+ str (PInt (status_code r)) +:+ ".")).

Definition __init__ (fuel : nat) (livy_url config jars : pyval) : M unit :=
  setattr "livy_url" livy_url;;
  setattr "jars" jars;;
  setattr "config" config;;
  let* session_id := create_session fuel in
  setattr "session_id" session_id;;
  setattr "headers" (PDict [("Content-Type", PStr "application/json")]).

(** [LivyInteractiveSessionClient(livy_url, config, jars)]: [__init__] run
    on a fresh instance. *)
Definition LivyInteractiveSessionClient (fuel : nat) (livy_url config jars : pyval)
    (t : list event) : outcome unit * world :=
  __init__ fuel livy_url config jars {| self := ∅; trace := t |}.

Definition remove_session : M pyval :=
  let* livy_url := getattr "livy_url" in
  let* session_id := getattr "session_id" in
  let* headers := getattr "headers" in
  let* r := requests_delete (str livy_url +:+ "/sessions/" +:+ str session_id) headers in
  if negb (status_code r =? codes_ok)%Z then
    raise (HTTPError ("Livy Error: Session Delete API failed with status code "
                      +:+ str (PInt (status_code r)) +:+ "."))
  else
    ret PNone.

(** One iteration of the [while True:] of [get_output].  The chain of
    [if]/[elif] has no final [else]: on any other state the block ends and
    the loop starts over. *)
Definition get_output_poll (statement_id : pyval) : M (option pyval) :=
  let* livy_url := getattr "livy_url" in
  let* session_id := getattr "session_id" in
  let* headers := getattr "headers" in
  let* r := requests_get (str livy_url +:+ "/sessions/" +:+ str session_id
                          +:+ "/statements/" +:+ str statement_id) headers in
  let* body := json r in
  let* state := get body "state" in
  if py_eq_str state "error" then
    raise (Exception "Spark Error: Statement execution failed")
  else if py_in_strs state ["running"; "waiting"] then
    sleep 15;;
    ret None
  else if py_eq_str state "available" then
    let* body' := json r in
    let* output := get body' "output" in
    let* status := get output "status" in
    if py_eq_str status "ok" then
      let* data := get output "data" in
      let* text := get data "text/plain" in
      ret (Some text)
    else
      raise (Exception "Livy/Spark Error: Statement execution failed.")
  else
    ret None.

Definition get_output (fuel : nat) (statement_id : pyval) : M pyval :=
  while_true fuel (get_output_poll statement_id).

Definition submit_statement (fuel : nat) (statement : pyval) : M pyval :=
  let statement := PDict [("code", statement)] in
  let* livy_url := getattr "livy_url" in
  let* session_id := getattr "session_id" in
  let* headers := getattr "headers" in
  let* r := requests_post (str livy_url +:+ "/sessions/" +:+ str session_id +:+ "/statements")
                          (json_dumps statement) headers in
  if (status_code r =? codes_created)%Z then
    let* body := json r in
    let* statement_id := getitem body "id" in
    get_output fuel statement_id
  else
    raise (HTTPError ("Livy Error: Statement Post API failed with status code "
                      +:+ str (PInt (status_code r)) +:+ ".")).

End Client.

(** ** The error taxonomy of the specification

    The source raises [Exception] and [requests.HTTPError] with a message
    per raise site; the names of the specification designate those sites. *)

(** [create_session], the [else] of the status test. *)
Definition SessionCreationError (code : Z) : pyexc :=
  Exception ("Livy Error: Session Post API failed with status code " +:+ pretty code +:+ ".").

(** [create_session], the [else] of the polling loop. *)
Definition SessionInitializationError : pyexc :=
  Exception "Livy Error: Spark session initialization failed.".

(** [remove_session]. *)
Definition SessionRemovalError (code : Z) : pyexc :=
  HTTPError ("Livy Error: Session Delete API failed with status code " +:+ pretty code +:+ ".").

(** [submit_statement], the [else] of the status test. *)
Definition StatementSubmissionError (code : Z) : pyexc :=
  HTTPError ("Livy Error: Statement Post API failed with status code " +:+ pretty code +:+ ".").

(** [get_output]: the [error] state, and [available] with a status other
    than [ok]. *)
Inductive StatementExecutionError : pyexc -> Prop :=
| exec_state_error :
    StatementExecutionError (Exception "Spark Error: Statement execution failed")
| exec_status_not_ok :
    StatementExecutionError (Exception "Livy/Spark Error: Statement execution failed.").

(** ** Properties of computations *)

(** A computation that leaves the attribute dictionary as it found it,
    however it ends. *)
Definition preserves_self {A} (m : M A) : Prop :=
  forall w, self (snd (m w)) = self w.

(** A computation all of whose exceptions satisfy [P]. *)
Definition raises_only {A} (P : pyexc -> Prop) (m : M A) : Prop :=
  forall w e, fst (m w) = Raised e -> P e.

Definition is_HTTPError (e : pyexc) : bool :=
  match e with
  | HTTPError _ => true
  | _ => false
  end.

(** The seconds spent in [time.sleep] along a trace. *)
Fixpoint time_slept (t : list event) : Z :=
  match t with
  | [] => 0
  | Sleep secs :: t' => secs + time_slept t'
  | Http _ _ :: t' => time_slept t'
  end.

(** The [state] a response reports when its body is a JSON object; an
    object without a [state] key reports [None], as [dict.get] does. *)
Definition reported_state (rs : response) : option pyval :=
  match json_body rs with
  | Some (PDict d) => Some (default PNone (dict_lookup "state" d))
  | _ => None
  end.

(** The world after [k] rounds of sending [rq] and sleeping [secs]. *)
Fixpoint after_rounds (server : list event -> request -> response)
    (rq : request) (secs : Z) (k : nat) (w : world) : world :=
  match k with
  | O => w
  | S k' =>
      after_rounds server rq secs k'
        (log (Sleep secs) (log (Http rq (server (trace w) rq)) w))
  end.

(** A computation that only appends to the trace, and only events that
    satisfy [P]. *)
Definition emits {A} (P : event -> Prop) (m : M A) : Prop :=
  forall w, exists evs, trace (snd (m w)) = (trace w ++ evs)%list /\ Forall P evs.

(** An event that is a request with one of the given methods, or a sleep of
    one of the given lengths. *)
Definition allowed (methods : list http_method) (lengths : list Z) (e : event) : Prop :=
  match e with
  | Http rq _ => In (rq_method rq) methods
  | Sleep secs => In secs lengths
  end.

(** ** Concrete services and instances

    Used to run the methods on the end-to-end scenarios of the
    specification. *)

(** A service that answers the n-th request with the n-th entry of a
    script, whatever the request, and with [dflt] once the script is over. *)
Fixpoint requests_sent (t : list event) : nat :=
  match t with
  | [] => O
  | Http _ _ :: t' => S (requests_sent t')
  | Sleep _ :: t' => requests_sent t'
  end.

Definition scripted (script : list response) (dflt : response)
    (t : list event) (_ : request) : response :=
  nth (requests_sent t) script dflt.

Definition reply (code : Z) (body : pyval) : response :=
  {| status_code := code; json_body := Some body |}.

Definition session_in (state : string) : response :=
  reply 200 (PDict [("id", PStr "0"); ("state", PStr state)]).

Definition statement_in (state : string) : response :=
  reply 200 (PDict [("id", PStr "5"); ("state", PStr state)]).

Definition statement_done (status : string) (data : pyval) : response :=
  reply 200 (PDict [("id", PStr "5"); ("state", PStr "available");
                    ("output", PDict [("status", PStr status); ("data", data)])]).

Definition not_found : response :=
  {| status_code := 404; json_body := None |}.

(** Stand-ins for [json.dumps] and [repr], whose results no scenario
    depends on. *)
Definition dumps_any (_ : pyval) : string := "<json>".
Definition repr_any (_ : pyval) : string := "<repr>".

Definition json_headers : pyval := PDict [("Content-Type", PStr "application/json")].

(** An instance with every attribute assigned. *)
Definition client0 : gmap string pyval :=
  <["headers" := json_headers]>
    (<["session_id" := PStr "0"]>
       (<["config" := PDict []]>
          (<["jars" := PList []]>
             (<["livy_url" := PStr "http://livy:8998"]> ∅)))).

Definition world0 : world := {| self := client0; trace := [] |}.

(** An instance as [__init__] leaves it: [session_id] and [headers] were
    never assigned. *)
Definition world_unfinished : world :=
  {| self := <["config" := PDict []]>
               (<["jars" := PList []]> (<["livy_url" := PStr "http://livy:8998"]> ∅));
     trace := [] |}.

(** A service that always gives the same answer. *)
Definition always (rs : response) (_ : list event) (_ : request) : response := rs.

(** A service that accepts every POST with identifier 0 and answers every
    other request with [rs]. *)
Definition creating (rs : response) (_ : list event) (rq : request) : response :=
  match rq_method rq with
  | POST => reply 201 (PDict [("id", PStr "0")])
  | _ => rs
  end.

(** The requests that instance sends. *)
Definition post_session : request :=
  mkRequest POST "http://livy:8998/sessions" (Some "<json>") json_headers.

Definition get_session_0 : request :=
  mkRequest GET "http://livy:8998/sessions/0" None json_headers.

Definition delete_session_0 : request :=
  mkRequest DELETE "http://livy:8998/sessions/0" None json_headers.

Definition post_statement : request :=
  mkRequest POST "http://livy:8998/sessions/0/statements" (Some "<json>") json_headers.

Definition get_statement_5 : request :=
  mkRequest GET "http://livy:8998/sessions/0/statements/5" None json_headers.

(** ** Running the monad *)

Lemma bind_ret {A B} (a : A) (k : A -> M B) (w : world) :
  bind (ret a) k w = k a w.
Proof. reflexivity. Qed.

Lemma bind_raise {A B} (e : pyexc) (k : A -> M B) (w : world) :
  bind (raise e) k w = (Raised e, w).
Proof. reflexivity. Qed.

Lemma bind_getattr {B} (name : string) (v : pyval) (k : pyval -> M B) (w : world) :
  self w !! name = Some v -> bind (getattr name) k w = k v w.
Proof. intros H. unfold bind, getattr. now rewrite H. Qed.

Lemma bind_sleep {B} (secs : Z) (k : unit -> M B) (w : world) :
  bind (sleep secs) k w = k tt (log (Sleep secs) w).
Proof. reflexivity. Qed.

Lemma bind_setattr {B} (name : string) (v : pyval) (k : unit -> M B) (w : world) :
  bind (setattr name v) k w = k tt {| self := <[name := v]> (self w); trace := trace w |}.
Proof. reflexivity. Qed.

Lemma self_log (e : event) (w : world) : self (log e w) = self w.
Proof. reflexivity. Qed.

Lemma while_true_S {A} (fuel : nat) (body : M (option A)) (w : world) :
  while_true (S fuel) body w =
    match body w with
    | (Returned (Some a), w') => (Returned a, w')
    | (Returned None, w') => while_true fuel body w'
    | (Raised e, w') => (Raised e, w')
    | (Pending, w') => (Pending, w')
    end.
Proof.
  simpl. unfold bind. destruct (body w) as [[[a|]|e|] w']; reflexivity.
Qed.

Lemma py_eq_str_true (v : pyval) (lit : string) :
  py_eq_str v lit = true <-> v = PStr lit.
Proof.
  destruct v; simpl; try (split; [discriminate | intros [=]]).
  rewrite String.eqb_eq. split; [intros -> | intros [=]]; congruence.
Qed.

Lemma py_eq_str_false (v : pyval) (lit : string) :
  py_eq_str v lit = false <-> v <> PStr lit.
Proof.
  rewrite <- py_eq_str_true. destruct (py_eq_str v lit); split; congruence.
Qed.

Lemma get_dict (d : list (string * pyval)) (key : string) :
  get (PDict d) key = ret (default PNone (dict_lookup key d)).
Proof. reflexivity. Qed.

(** The messages determine the status code they were built from. *)
Lemma length_append (a b : string) :
  String.length (a +:+ b) = (String.length a + String.length b)%nat.
Proof. induction a as [| c a IH]; simpl; [reflexivity | now rewrite IH]. Qed.

Lemma append_cancel_r (a b t : string) : a +:+ t = b +:+ t -> a = b.
Proof.
  revert b. induction a as [| c a IH]; intros [| c' b] H; simpl in H.
  - reflexivity.
  - apply (f_equal String.length) in H. simpl in H. rewrite ?length_append in H.
    simpl in H. lia.
  - apply (f_equal String.length) in H. simpl in H. rewrite ?length_append in H.
    simpl in H. lia.
  - injection H as -> H. f_equal. now apply IH.
Qed.

(** X18: the messages of the three errors that carry a status code
    determine it: two such errors are equal only for equal codes. *)
Lemma status_code_carried (c1 c2 : Z) :
  (SessionCreationError c1 = SessionCreationError c2 -> c1 = c2)
  /\ (SessionRemovalError c1 = SessionRemovalError c2 -> c1 = c2)
  /\ (StatementSubmissionError c1 = StatementSubmissionError c2 -> c1 = c2).
Proof.
  repeat split; intros [= H];
    change (pretty c1 +:+ "." = pretty c2 +:+ ".") in H;
    apply append_cancel_r in H; now apply (inj pretty).
Qed.

Section ClientFacts.

Variable server : list event -> request -> response.
Variable json_dumps : pyval -> string.
Variable repr : pyval -> string.

Local Abbreviation str := (str repr).
Local Abbreviation send := (send server).
Local Abbreviation create_session_poll := (create_session_poll server repr).
Local Abbreviation create_session := (create_session server json_dumps repr).
Local Abbreviation get_output_poll := (get_output_poll server repr).
Local Abbreviation get_output := (get_output server repr).
Local Abbreviation submit_statement := (submit_statement server json_dumps repr).
Local Abbreviation remove_session := (remove_session server repr).

Lemma bind_send {B} (rq : request) (k : response -> M B) (w : world) :
  bind (send rq) k w = k (server (trace w) rq) (log (Http rq (server (trace w) rq)) w).
Proof. reflexivity. Qed.

Lemma bind_json {B} (r : response) (v : pyval) (k : pyval -> M B) (w : world) :
  json_body r = Some v -> bind (json r) k w = k v w.
Proof. intros H. unfold json. now rewrite H. Qed.

Ltac run :=
  repeat first
    [ rewrite bind_ret
    | rewrite bind_raise
    | rewrite bind_sleep
    | rewrite bind_send
    | rewrite get_dict
    | erewrite bind_json by eassumption
    | erewrite bind_getattr by (rewrite ?self_log; eassumption) ].

(** *** The constructor *)

(** C1: [__init__] calls [create_session] before it assigns
    [self.headers], and [create_session] reads [self.headers] to build its
    first request.  So for every endpoint, configuration, jar list and
    service the constructor ends with [AttributeError] on [headers]; no
    request is sent and [session_id] is never stored. *)
Theorem init_raises_before_any_request
    (fuel : nat) (livy_url config jars : pyval) (t : list event) :
  LivyInteractiveSessionClient server json_dumps repr fuel livy_url config jars t =
    (Raised (AttributeError "headers"),
     {| self := <["config" := config]> (<["jars" := jars]> (<["livy_url" := livy_url]> ∅));
        trace := t |}).
Proof.
  unfold LivyInteractiveSessionClient, __init__, create_session.
  rewrite !bind_setattr. cbn [self trace]. unfold bind at 1.
  erewrite bind_getattr; cycle 1.
  { cbn [self]. rewrite lookup_insert_ne by done. apply lookup_insert_eq. }
  erewrite bind_getattr; cycle 1.
  { cbn [self]. apply lookup_insert_eq. }
  erewrite bind_getattr; cycle 1.
  { cbn [self]. rewrite !lookup_insert_ne by done. apply lookup_insert_eq. }
  unfold bind at 1. unfold bind at 1. unfold getattr. cbn [self].
  rewrite !lookup_insert_ne by done. rewrite lookup_empty. reflexivity.
Qed.

(** *** The polling loop of [create_session] *)

(** What one iteration does once the poll is answered by a JSON object. *)
Lemma create_session_poll_run
    (w : world) (u h session_id : pyval) (d : list (string * pyval)) :
  self w !! "livy_url" = Some u ->
  self w !! "headers" = Some h ->
  let rq := mkRequest GET (str u +:+ "/sessions/" +:+ str session_id) None h in
  let rs := server (trace w) rq in
  json_body rs = Some (PDict d) ->
  let state := default PNone (dict_lookup "state" d) in
  create_session_poll session_id w =
    (if py_eq_str state "idle" then ret (Some session_id)
     else if py_in_strs state ["starting"; "not_started"] then sleep 15;; ret None
     else raise (Exception "Livy Error: Spark session initialization failed."))
      (log (Http rq rs) w).
Proof.
  intros Hu Hh rq rs Hbody state.
  unfold create_session_poll, requests_get. run. reflexivity.
Qed.

(** C2: one iteration of the session-creation loop, on an instance whose
    [livy_url] and [headers] are assigned and for a poll answered by a JSON
    object.  If its [state] is [idle] the loop returns the session
    identifier, the poll being the only event; if it is [starting] or
    [not_started] the iteration sleeps 15 and the loop goes on from there;
    on anything else (a missing [state] included) it raises
    [SessionInitializationError]. *)
Theorem create_session_poll_step
    (w : world) (u h session_id : pyval) (d : list (string * pyval)) :
  self w !! "livy_url" = Some u ->
  self w !! "headers" = Some h ->
  let rq := mkRequest GET (str u +:+ "/sessions/" +:+ str session_id) None h in
  let rs := server (trace w) rq in
  json_body rs = Some (PDict d) ->
  let state := default PNone (dict_lookup "state" d) in
  let w1 := log (Http rq rs) w in
  (state = PStr "idle" ->
   forall fuel,
     while_true (S fuel) (create_session_poll session_id) w = (Returned session_id, w1))
  /\ (state = PStr "starting" \/ state = PStr "not_started" ->
      create_session_poll session_id w = (Returned None, log (Sleep 15) w1)
      /\ forall fuel,
          while_true (S fuel) (create_session_poll session_id) w =
          while_true fuel (create_session_poll session_id) (log (Sleep 15) w1))
  /\ (state <> PStr "idle" -> state <> PStr "starting" -> state <> PStr "not_started" ->
      forall fuel,
        while_true (S fuel) (create_session_poll session_id) w =
        (Raised SessionInitializationError, w1)).
Proof.
  intros Hu Hh rq rs Hbody state w1.
  pose proof (create_session_poll_run w u h session_id d Hu Hh Hbody) as Hrun.
  cbv zeta in Hrun. fold rq rs state w1 in Hrun.
  split; [| split].
  - intros Hst fuel. rewrite while_true_S, Hrun, Hst. reflexivity.
  - intros Hst.
    assert (Hpoll : create_session_poll session_id w = (Returned None, log (Sleep 15) w1)).
    { rewrite Hrun. destruct Hst as [-> | ->]; reflexivity. }
    split; [exact Hpoll |].
    intros fuel. rewrite while_true_S, Hpoll. reflexivity.
  - intros Hidle Hstarting Hnot fuel. rewrite while_true_S, Hrun.
    apply py_eq_str_false in Hidle, Hstarting, Hnot.
    unfold py_in_strs. simpl. rewrite Hidle, Hstarting, Hnot. reflexivity.
Qed.

(** A service that keeps answering [starting] or [not_started] keeps the
    loop polling: whatever the fuel, it neither returns nor raises. *)
Lemma create_session_keeps_polling (u h session_id : pyval) :
  let rq := mkRequest GET (str u +:+ "/sessions/" +:+ str session_id) None h in
  (forall t, exists d,
      json_body (server t rq) = Some (PDict d) /\
      (dict_lookup "state" d = Some (PStr "starting") \/
       dict_lookup "state" d = Some (PStr "not_started"))) ->
  forall fuel w,
    self w !! "livy_url" = Some u ->
    self w !! "headers" = Some h ->
    fst (while_true fuel (create_session_poll session_id) w) = Pending.
Proof.
  intros rq Hsrv fuel. induction fuel as [| fuel IH]; intros w Hu Hh; [reflexivity |].
  destruct (Hsrv (trace w)) as (d & Hbody & Hst).
  rewrite while_true_S.
  rewrite (create_session_poll_run w u h session_id d Hu Hh Hbody).
  destruct Hst as [-> | ->]; cbn; apply IH; assumption.
Qed.

(** *** The polling loop of [get_output] *)

(** What one iteration does once the poll is answered by a JSON object. *)
Lemma get_output_poll_run
    (w : world) (u s h statement_id : pyval) (d : list (string * pyval)) :
  self w !! "livy_url" = Some u ->
  self w !! "session_id" = Some s ->
  self w !! "headers" = Some h ->
  let rq := mkRequest GET (str u +:+ "/sessions/" +:+ str s +:+ "/statements/"
                           +:+ str statement_id) None h in
  let rs := server (trace w) rq in
  json_body rs = Some (PDict d) ->
  let state := default PNone (dict_lookup "state" d) in
  get_output_poll statement_id w =
    (if py_eq_str state "error" then
       raise (Exception "Spark Error: Statement execution failed")
     else if py_in_strs state ["running"; "waiting"] then sleep 15;; ret None
     else if py_eq_str state "available" then
       let* output := get (PDict d) "output" in
       let* status := get output "status" in
       if py_eq_str status "ok" then
         let* data := get output "data" in
         let* text := get data "text/plain" in
         ret (Some text)
       else raise (Exception "Livy/Spark Error: Statement execution failed.")
     else ret None) (log (Http rq rs) w).
Proof.
  intros Hu Hs Hh rq rs Hbody state.
  unfold get_output_poll, requests_get. run. fold rq rs state.
  destruct (py_eq_str state "error"); [reflexivity |].
  destruct (py_in_strs state ["running"; "waiting"]); [reflexivity |].
  destruct (py_eq_str state "available"); [| reflexivity].
  erewrite bind_json by eassumption. reflexivity.
Qed.

(** C3: when the poll reports state [available] and an output whose status
    is [ok], [get_output] returns the value stored under [text/plain] in
    the output's data, as it is, the poll being the only event. *)
Theorem get_output_available_ok
    (w : world) (u s h statement_id : pyval)
    (d out dat : list (string * pyval)) (text : pyval) (fuel : nat) :
  self w !! "livy_url" = Some u ->
  self w !! "session_id" = Some s ->
  self w !! "headers" = Some h ->
  let rq := mkRequest GET (str u +:+ "/sessions/" +:+ str s +:+ "/statements/"
                           +:+ str statement_id) None h in
  let rs := server (trace w) rq in
  json_body rs = Some (PDict d) ->
  dict_lookup "state" d = Some (PStr "available") ->
  dict_lookup "output" d = Some (PDict out) ->
  dict_lookup "status" out = Some (PStr "ok") ->
  dict_lookup "data" out = Some (PDict dat) ->
  dict_lookup "text/plain" dat = Some text ->
  get_output (S fuel) statement_id w = (Returned text, log (Http rq rs) w).
Proof.
  intros Hu Hs Hh rq rs Hbody Hstate Hout Hstatus Hdata Htext.
  unfold get_output. rewrite while_true_S.
  rewrite (get_output_poll_run w u s h statement_id d Hu Hs Hh Hbody).
  rewrite Hstate. cbn. rewrite Hout. cbn. rewrite Hstatus. cbn.
  rewrite Hdata. cbn. rewrite Htext. reflexivity.
Qed.

(** C9: when the poll reports state [available] with status [ok] and the
    output's data is a mapping without a [text/plain] key, [get_output]
    returns [None]; it does not raise. *)
Theorem get_output_without_text_plain
    (w : world) (u s h statement_id : pyval)
    (d out dat : list (string * pyval)) (fuel : nat) :
  self w !! "livy_url" = Some u ->
  self w !! "session_id" = Some s ->
  self w !! "headers" = Some h ->
  let rq := mkRequest GET (str u +:+ "/sessions/" +:+ str s +:+ "/statements/"
                           +:+ str statement_id) None h in
  let rs := server (trace w) rq in
  json_body rs = Some (PDict d) ->
  dict_lookup "state" d = Some (PStr "available") ->
  dict_lookup "output" d = Some (PDict out) ->
  dict_lookup "status" out = Some (PStr "ok") ->
  dict_lookup "data" out = Some (PDict dat) ->
  dict_lookup "text/plain" dat = None ->
  get_output (S fuel) statement_id w = (Returned PNone, log (Http rq rs) w).
Proof.
  intros Hu Hs Hh rq rs Hbody Hstate Hout Hstatus Hdata Htext.
  unfold get_output. rewrite while_true_S.
  rewrite (get_output_poll_run w u s h statement_id d Hu Hs Hh Hbody).
  rewrite Hstate. cbn. rewrite Hout. cbn. rewrite Hstatus. cbn.
  rewrite Hdata. cbn. rewrite Htext. reflexivity.
Qed.

(** C4: when the poll reports state [error], or state [available] with an
    output whose status is not [ok] (a missing status included),
    [get_output] raises a [StatementExecutionError]. *)
Theorem get_output_execution_error
    (w : world) (u s h statement_id : pyval) (d : list (string * pyval)) (fuel : nat) :
  self w !! "livy_url" = Some u ->
  self w !! "session_id" = Some s ->
  self w !! "headers" = Some h ->
  let rq := mkRequest GET (str u +:+ "/sessions/" +:+ str s +:+ "/statements/"
                           +:+ str statement_id) None h in
  let rs := server (trace w) rq in
  json_body rs = Some (PDict d) ->
  let state := default PNone (dict_lookup "state" d) in
  state = PStr "error" \/
  (state = PStr "available" /\
   exists out, dict_lookup "output" d = Some (PDict out) /\
               default PNone (dict_lookup "status" out) <> PStr "ok") ->
  exists e, StatementExecutionError e /\
            get_output (S fuel) statement_id w = (Raised e, log (Http rq rs) w).
Proof.
  intros Hu Hs Hh rq rs Hbody state Hcase.
  unfold get_output. rewrite while_true_S.
  rewrite (get_output_poll_run w u s h statement_id d Hu Hs Hh Hbody).
  fold state. destruct Hcase as [-> | (-> & out & Hout & Hstatus)].
  - eexists. split; [apply exec_state_error | reflexivity].
  - eexists. split; [apply exec_status_not_ok |].
    apply py_eq_str_false in Hstatus.
    cbn. rewrite Hout. cbn. rewrite Hstatus. reflexivity.
Qed.

(** C5: on a statement state other than [running], [waiting], [error] and
    [available] (a missing state included) the iteration of the
    output-retrieval loop ends without returning and without raising: the
    poll is its only event, it does not sleep, and the loop starts its next
    iteration. *)
Theorem get_output_unhandled_state
    (w : world) (u s h statement_id : pyval) (d : list (string * pyval)) :
  self w !! "livy_url" = Some u ->
  self w !! "session_id" = Some s ->
  self w !! "headers" = Some h ->
  let rq := mkRequest GET (str u +:+ "/sessions/" +:+ str s +:+ "/statements/"
                           +:+ str statement_id) None h in
  let rs := server (trace w) rq in
  json_body rs = Some (PDict d) ->
  let state := default PNone (dict_lookup "state" d) in
  state <> PStr "running" -> state <> PStr "waiting" ->
  state <> PStr "error" -> state <> PStr "available" ->
  get_output_poll statement_id w = (Returned None, log (Http rq rs) w)
  /\ forall fuel,
      get_output (S fuel) statement_id w = get_output fuel statement_id (log (Http rq rs) w).
Proof.
  intros Hu Hs Hh rq rs Hbody state Hrun Hwait Herr Hav.
  assert (Hpoll : get_output_poll statement_id w = (Returned None, log (Http rq rs) w)).
  { rewrite (get_output_poll_run w u s h statement_id d Hu Hs Hh Hbody). fold state.
    apply py_eq_str_false in Hrun, Hwait, Herr, Hav.
    unfold py_in_strs. simpl. rewrite Hrun, Hwait, Herr, Hav. reflexivity. }
  split; [exact Hpoll |].
  intros fuel. unfold get_output. rewrite while_true_S, Hpoll. reflexivity.
Qed.

(** *** The requests of [create_session] and [remove_session] *)

(** C6: on an instance with its attributes assigned, when the creation
    request is answered with a status other than 201, [create_session]
    raises [SessionCreationError] with that status code; the creation
    request is the only event, so no poll is sent. *)
Theorem create_session_rejected
    (w : world) (j c u h : pyval) (fuel : nat) :
  self w !! "jars" = Some j ->
  self w !! "config" = Some c ->
  self w !! "livy_url" = Some u ->
  self w !! "headers" = Some h ->
  let data := PDict [("kind", PStr "spark"); ("proxyUser", PStr "hadoop");
                     ("jars", j); ("conf", c)] in
  let rq := mkRequest POST (str u +:+ "/sessions") (Some (json_dumps data)) h in
  let rs := server (trace w) rq in
  status_code rs <> codes_created ->
  create_session fuel w =
    (Raised (SessionCreationError (status_code rs)), log (Http rq rs) w).
Proof.
  intros Hj Hc Hu Hh data rq rs Hcode.
  unfold create_session, requests_post. run. fold data rq rs.
  apply Z.eqb_neq in Hcode. rewrite Hcode. reflexivity.
Qed.

(** C8: on an instance with its attributes assigned, [remove_session]
    returns [None] without raising when the deletion request is answered
    with status 200, and raises [SessionRemovalError] with the received
    status code on every other status. *)
Theorem remove_session_outcome (w : world) (u s h : pyval) :
  self w !! "livy_url" = Some u ->
  self w !! "session_id" = Some s ->
  self w !! "headers" = Some h ->
  let rq := mkRequest DELETE (str u +:+ "/sessions/" +:+ str s) None h in
  let rs := server (trace w) rq in
  (status_code rs = codes_ok ->
   remove_session w = (Returned PNone, log (Http rq rs) w))
  /\ (status_code rs <> codes_ok ->
      remove_session w =
        (Raised (SessionRemovalError (status_code rs)), log (Http rq rs) w)).
Proof.
  intros Hu Hs Hh rq rs.
  assert (Hrun : remove_session w =
    (if negb (status_code rs =? codes_ok)%Z
     then raise (SessionRemovalError (status_code rs))
     else ret PNone) (log (Http rq rs) w)).
  { unfold remove_session, requests_delete. run. reflexivity. }
  rewrite Hrun. split; intros Hcode.
  - rewrite Hcode. reflexivity.
  - apply Z.eqb_neq in Hcode. rewrite Hcode. reflexivity.
Qed.

(** *** What the methods leave untouched, and what they can raise *)

Lemma preserves_self_ret {A} (a : A) : preserves_self (ret a).
Proof. intros w. reflexivity. Qed.

Lemma preserves_self_raise {A} (e : pyexc) : preserves_self (@raise A e).
Proof. intros w. reflexivity. Qed.

Lemma preserves_self_getattr (name : string) : preserves_self (getattr name).
Proof. intros w. unfold getattr. destruct (self w !! name); reflexivity. Qed.

Lemma preserves_self_sleep (secs : Z) : preserves_self (sleep secs).
Proof. intros w. reflexivity. Qed.

Lemma preserves_self_send (rq : request) : preserves_self (send rq).
Proof. intros w. reflexivity. Qed.

Lemma preserves_self_json (r : response) : preserves_self (json r).
Proof. intros w. unfold json. destruct (json_body r); reflexivity. Qed.

Lemma preserves_self_get (v : pyval) (key : string) : preserves_self (get v key).
Proof. intros w. destruct v; reflexivity. Qed.

Lemma preserves_self_getitem (v : pyval) (key : string) : preserves_self (getitem v key).
Proof.
  intros w. destruct v; try reflexivity.
  simpl. destruct (dict_lookup key d); reflexivity.
Qed.

Lemma preserves_self_bind {A B} (m : M A) (k : A -> M B) :
  preserves_self m -> (forall a, preserves_self (k a)) -> preserves_self (bind m k).
Proof.
  intros Hm Hk w. unfold bind. specialize (Hm w).
  destruct (m w) as [[a | e |] w']; simpl in *; [| assumption | assumption].
  rewrite Hk. assumption.
Qed.

Lemma preserves_self_while_true {A} (fuel : nat) (body : M (option A)) :
  preserves_self body -> preserves_self (while_true fuel body).
Proof.
  intros Hbody. induction fuel as [| fuel IH]; [intros w; reflexivity |].
  simpl. apply preserves_self_bind; [assumption |].
  intros [a |]; [apply preserves_self_ret | exact IH].
Qed.

Lemma raises_only_ret {A} (P : pyexc -> Prop) (a : A) : raises_only P (ret a).
Proof. intros w e [=]. Qed.

Lemma raises_only_raise {A} (P : pyexc -> Prop) (e : pyexc) :
  P e -> raises_only P (@raise A e).
Proof. intros He w e' [= <-]. assumption. Qed.

Lemma raises_only_getattr (P : pyexc -> Prop) (name : string) :
  P (AttributeError name) -> raises_only P (getattr name).
Proof.
  intros He w e. unfold getattr. destruct (self w !! name); intros [=]. now subst.
Qed.

Lemma raises_only_sleep (P : pyexc -> Prop) (secs : Z) : raises_only P (sleep secs).
Proof. intros w e [=]. Qed.

Lemma raises_only_send (P : pyexc -> Prop) (rq : request) : raises_only P (send rq).
Proof. intros w e [=]. Qed.

Lemma raises_only_json (P : pyexc -> Prop) (r : response) :
  P JSONDecodeError -> raises_only P (json r).
Proof.
  intros He w e. unfold json. destruct (json_body r); intros [=]. now subst.
Qed.

Lemma raises_only_get (P : pyexc -> Prop) (v : pyval) (key : string) :
  P (AttributeError "get") -> raises_only P (get v key).
Proof. intros He w e. destruct v; intros [=]; now subst. Qed.

Lemma raises_only_getitem (P : pyexc -> Prop) (v : pyval) (key : string) :
  P (KeyError key) -> P TypeError -> raises_only P (getitem v key).
Proof.
  intros Hk Ht w e. destruct v; simpl; try (intros [=]; now subst).
  destruct (dict_lookup key d); intros [=]. now subst.
Qed.

Lemma raises_only_bind {A B} (P : pyexc -> Prop) (m : M A) (k : A -> M B) :
  raises_only P m -> (forall a, raises_only P (k a)) -> raises_only P (bind m k).
Proof.
  intros Hm Hk w e. unfold bind. specialize (Hm w).
  destruct (m w) as [[a | e' |] w']; simpl in *.
  - apply Hk.
  - intros [= <-]. now apply Hm.
  - intros [=].
Qed.

Lemma raises_only_while_true {A} (P : pyexc -> Prop) (fuel : nat) (body : M (option A)) :
  raises_only P body -> raises_only P (while_true fuel body).
Proof.
  intros Hbody. induction fuel as [| fuel IH]; [intros w e [=] |].
  simpl. apply raises_only_bind; [assumption |].
  intros [a |]; [apply raises_only_ret | exact IH].
Qed.

Create HintDb frame.
#[local] Hint Resolve preserves_self_ret preserves_self_raise preserves_self_getattr
  preserves_self_sleep preserves_self_send preserves_self_json preserves_self_get
  preserves_self_getitem : frame.

Create HintDb raises.
#[local] Hint Resolve raises_only_ret raises_only_raise raises_only_getattr
  raises_only_sleep raises_only_send raises_only_json raises_only_get
  raises_only_getitem : raises.

Ltac through lem_bind lem_loop db :=
  repeat first
    [ apply lem_loop
    | apply lem_bind; [| intros ?]
    | match goal with |- context [if ?b then _ else _] => destruct b end
    | solve [auto with db] ].

Lemma preserves_self_get_output_poll (statement_id : pyval) :
  preserves_self (get_output_poll statement_id).
Proof.
  unfold get_output_poll, requests_get.
  through @preserves_self_bind @preserves_self_while_true frame.
Qed.

Lemma raises_only_get_output (fuel : nat) (statement_id : pyval) :
  raises_only (fun e => is_HTTPError e = false) (get_output fuel statement_id).
Proof.
  unfold get_output, get_output_poll, requests_get.
  through @raises_only_bind @raises_only_while_true raises.
Qed.

(** *** [submit_statement] *)

(** C7: on an instance with its attributes assigned, [submit_statement]
    raises [StatementSubmissionError] exactly when the submission request
    is answered with a status other than 201, and then with the received
    status code, the request being the only event; when the status is 201
    and the body carries an [id], its result is the result of [get_output]
    for that identifier, run after the request. *)
Theorem submit_statement_outcome
    (w : world) (u s h statement : pyval) (fuel : nat) :
  self w !! "livy_url" = Some u ->
  self w !! "session_id" = Some s ->
  self w !! "headers" = Some h ->
  let rq := mkRequest POST (str u +:+ "/sessions/" +:+ str s +:+ "/statements")
                      (Some (json_dumps (PDict [("code", statement)]))) h in
  let rs := server (trace w) rq in
  let w1 := log (Http rq rs) w in
  (status_code rs <> codes_created ->
   submit_statement fuel statement w =
     (Raised (StatementSubmissionError (status_code rs)), w1))
  /\ ((exists code, fst (submit_statement fuel statement w) =
                    Raised (StatementSubmissionError code))
      <-> status_code rs <> codes_created)
  /\ (status_code rs = codes_created ->
      forall d statement_id,
        json_body rs = Some (PDict d) ->
        dict_lookup "id" d = Some statement_id ->
        submit_statement fuel statement w = get_output fuel statement_id w1).
Proof.
  intros Hu Hs Hh rq rs w1.
  assert (Hrun : submit_statement fuel statement w =
    (if (status_code rs =? codes_created)%Z then
       let* body := json rs in
       let* statement_id := getitem body "id" in
       get_output fuel statement_id
     else raise (StatementSubmissionError (status_code rs))) w1).
  { unfold submit_statement, requests_post. run. reflexivity. }
  assert (Hrejected : status_code rs <> codes_created ->
    submit_statement fuel statement w =
      (Raised (StatementSubmissionError (status_code rs)), w1)).
  { intros Hcode. rewrite Hrun. apply Z.eqb_neq in Hcode. rewrite Hcode. reflexivity. }
  split; [exact Hrejected | split].
  - split.
    + intros [code Hraised] Hcode. rewrite Hrun, Hcode, Z.eqb_refl in Hraised.
      assert (Hnot : raises_only (fun e => is_HTTPError e = false)
                (let* body := json rs in
                 let* statement_id := getitem body "id" in
                 get_output fuel statement_id)).
      { apply raises_only_bind; [auto with raises | intros body].
        apply raises_only_bind; [auto with raises | intros statement_id].
        apply raises_only_get_output. }
      apply Hnot in Hraised. discriminate Hraised.
    + intros Hcode. exists (status_code rs). rewrite (Hrejected Hcode). reflexivity.
  - intros Hcode d statement_id Hbody Hid.
    rewrite Hrun, Hcode, Z.eqb_refl. run. simpl. rewrite Hid. reflexivity.
Qed.

(** *** The instance after a call *)

(** C10: [submit_statement], [get_output] and [remove_session] leave every
    attribute of the instance as they found it, whether the call returns,
    raises, or is still polling. *)
Theorem methods_leave_self_unchanged (fuel : nat) (v : pyval) (w : world) :
  self (snd (submit_statement fuel v w)) = self w
  /\ self (snd (get_output fuel v w)) = self w
  /\ self (snd (remove_session w)) = self w.
Proof.
  assert (Hget : forall statement_id, preserves_self (get_output fuel statement_id)).
  { intros statement_id. apply preserves_self_while_true.
    apply preserves_self_get_output_poll. }
  split; [| split].
  - revert w. change (preserves_self (submit_statement fuel v)).
    unfold submit_statement, requests_post.
    repeat (apply preserves_self_bind; [solve [auto with frame] | intros ?]).
    destruct (_ =? _)%Z; [| apply preserves_self_raise].
    repeat (apply preserves_self_bind; [solve [auto with frame] | intros ?]).
    apply Hget.
  - apply Hget.
  - revert w. change (preserves_self remove_session).
    unfold remove_session, requests_delete.
    through @preserves_self_bind @preserves_self_while_true frame.
Qed.

(** *** Further properties of the two polling loops *)

Lemma reported_state_body (rs : response) (st : pyval) :
  reported_state rs = Some st ->
  exists d, json_body rs = Some (PDict d) /\ st = default PNone (dict_lookup "state" d).
Proof.
  unfold reported_state. destruct (json_body rs) as [[] |]; try discriminate.
  intros [= <-]. eexists. split; reflexivity.
Qed.

Lemma requests_sent_snoc (t : list event) (e : event) :
  requests_sent (t ++ [e]) =
    match e with Http _ _ => S (requests_sent t) | Sleep _ => requests_sent t end.
Proof.
  induction t as [| [rq rs | secs] t IH]; simpl.
  - destruct e; reflexivity.
  - rewrite IH. destruct e; reflexivity.
  - exact IH.
Qed.

Lemma time_slept_snoc (t : list event) (e : event) :
  time_slept (t ++ [e]) =
    match e with Http _ _ => time_slept t | Sleep secs => time_slept t + secs end.
Proof.
  induction t as [| [rq rs | secs] t IH]; simpl.
  - destruct e; lia.
  - exact IH.
  - rewrite IH. destruct e; lia.
Qed.

(** X1: one iteration of the output-retrieval loop on state [running] or
    [waiting]: the iteration neither returns nor raises, it sleeps 15 after
    the poll, and the loop goes on from there. *)
Theorem get_output_in_progress_step
    (w : world) (u s h statement_id : pyval) :
  self w !! "livy_url" = Some u ->
  self w !! "session_id" = Some s ->
  self w !! "headers" = Some h ->
  let rq := mkRequest GET (str u +:+ "/sessions/" +:+ str s +:+ "/statements/"
                           +:+ str statement_id) None h in
  let rs := server (trace w) rq in
  reported_state rs = Some (PStr "running") \/ reported_state rs = Some (PStr "waiting") ->
  get_output_poll statement_id w = (Returned None, log (Sleep 15) (log (Http rq rs) w))
  /\ forall fuel,
      get_output (S fuel) statement_id w =
      get_output fuel statement_id (log (Sleep 15) (log (Http rq rs) w)).
Proof.
  intros Hu Hs Hh rq rs Hst.
  assert (Hpoll : get_output_poll statement_id w =
                  (Returned None, log (Sleep 15) (log (Http rq rs) w))).
  { destruct Hst as [Hst | Hst];
      apply reported_state_body in Hst; destruct Hst as (d & Hbody & Hst);
      rewrite (get_output_poll_run w u s h statement_id d Hu Hs Hh Hbody);
      rewrite <- Hst; reflexivity. }
  split; [exact Hpoll |].
  intros fuel. unfold get_output. rewrite while_true_S, Hpoll. reflexivity.
Qed.

(** X2: while the service keeps answering [running] or [waiting], the
    output-retrieval loop never returns and never raises: after any number
    [n] of iterations it is still polling, having sent [n] requests and
    slept [15 * n]. *)
Theorem get_output_waits_while_in_progress (u s h statement_id : pyval) :
  let rq := mkRequest GET (str u +:+ "/sessions/" +:+ str s +:+ "/statements/"
                           +:+ str statement_id) None h in
  (forall t, reported_state (server t rq) = Some (PStr "running") \/
             reported_state (server t rq) = Some (PStr "waiting")) ->
  forall (n : nat) (w : world),
    self w !! "livy_url" = Some u ->
    self w !! "session_id" = Some s ->
    self w !! "headers" = Some h ->
    let r := get_output n statement_id w in
    fst r = Pending
    /\ requests_sent (trace (snd r)) = (requests_sent (trace w) + n)%nat
    /\ time_slept (trace (snd r)) = time_slept (trace w) + 15 * Z.of_nat n.
Proof.
  intros rq Hsrv n. induction n as [| n IH]; intros w Hu Hs Hh.
  - simpl. repeat split; [lia | lia].
  - assert (Hstep : get_output_poll statement_id w =
      (Returned None, log (Sleep 15) (log (Http rq (server (trace w) rq)) w))).
    { destruct (Hsrv (trace w)) as [Hst | Hst];
        apply reported_state_body in Hst; destruct Hst as (d & Hbody & Hst);
        rewrite (get_output_poll_run w u s h statement_id d Hu Hs Hh Hbody);
        rewrite <- Hst; reflexivity. }
    cbv zeta. unfold get_output. rewrite while_true_S, Hstep.
    destruct (IH (log (Sleep 15) (log (Http rq (server (trace w) rq)) w)) Hu Hs Hh)
      as (Hp & Hr & Ht).
    unfold get_output in Hp, Hr, Ht. rewrite Hp, Hr, Ht.
    cbn [trace log]. rewrite !requests_sent_snoc, !time_slept_snoc.
    repeat split; lia.
Qed.

(** X3: while the service keeps answering a state the loop does not handle
    (anything but [running], [waiting], [error], [available]), the
    output-retrieval loop polls again at once: after [n] iterations it is
    still polling, having sent [n] requests and slept no time at all. *)
Theorem get_output_spins_on_unhandled_state (u s h statement_id : pyval) :
  let rq := mkRequest GET (str u +:+ "/sessions/" +:+ str s +:+ "/statements/"
                           +:+ str statement_id) None h in
  (forall t, exists st,
      reported_state (server t rq) = Some st /\
      st <> PStr "running" /\ st <> PStr "waiting" /\
      st <> PStr "error" /\ st <> PStr "available") ->
  forall (n : nat) (w : world),
    self w !! "livy_url" = Some u ->
    self w !! "session_id" = Some s ->
    self w !! "headers" = Some h ->
    let r := get_output n statement_id w in
    fst r = Pending
    /\ requests_sent (trace (snd r)) = (requests_sent (trace w) + n)%nat
    /\ time_slept (trace (snd r)) = time_slept (trace w).
Proof.
  intros rq Hsrv n. induction n as [| n IH]; intros w Hu Hs Hh.
  - simpl. repeat split; lia.
  - assert (Hstep : get_output_poll statement_id w =
      (Returned None, log (Http rq (server (trace w) rq)) w)).
    { destruct (Hsrv (trace w)) as (st & Hst & Hrun & Hwait & Herr & Hav).
      apply reported_state_body in Hst. destruct Hst as (d & Hbody & Hst).
      rewrite (get_output_poll_run w u s h statement_id d Hu Hs Hh Hbody).
      rewrite <- Hst. apply py_eq_str_false in Hrun, Hwait, Herr, Hav.
      unfold py_in_strs. simpl. rewrite Hrun, Hwait, Herr, Hav. reflexivity. }
    cbv zeta. unfold get_output. rewrite while_true_S, Hstep.
    destruct (IH (log (Http rq (server (trace w) rq)) w) Hu Hs Hh) as (Hp & Hr & Ht).
    unfold get_output in Hp, Hr, Ht. rewrite Hp, Hr, Ht.
    cbn [trace log]. rewrite !requests_sent_snoc, !time_slept_snoc.
    repeat split; lia.
Qed.

Lemma self_after_rounds (rq : request) (secs : Z) (k : nat) (w : world) :
  self (after_rounds server rq secs k w) = self w.
Proof.
  revert w. induction k as [| k IH]; intros w; [reflexivity |].
  simpl. rewrite IH. reflexivity.
Qed.

Lemma after_rounds_S (rq : request) (secs : Z) (k : nat) (w : world) :
  after_rounds server rq secs (S k) w =
    log (Sleep secs)
      (log (Http rq (server (trace (after_rounds server rq secs k w)) rq))
         (after_rounds server rq secs k w)).
Proof.
  revert w. induction k as [| k IH]; intros w; [reflexivity |].
  change (after_rounds server rq secs (S (S k)) w)
    with (after_rounds server rq secs (S k)
            (log (Sleep secs) (log (Http rq (server (trace w) rq)) w))).
  rewrite IH. reflexivity.
Qed.

(** A loop whose first [k] iterations each poll, sleep and go on. *)
Lemma while_true_after_rounds {A} (body : M (option A)) (rq : request) (secs : Z)
    (k : nat) (w : world) :
  (forall i, (i < k)%nat ->
     body (after_rounds server rq secs i w) =
     (Returned None, after_rounds server rq secs (S i) w)) ->
  forall fuel,
    while_true (k + fuel) body w = while_true fuel body (after_rounds server rq secs k w).
Proof.
  revert w. induction k as [| k IH]; intros w Hrounds fuel; [reflexivity |].
  change (S k + fuel)%nat with (S (k + fuel)). rewrite while_true_S.
  assert (Hfirst : body w =
            (Returned None, log (Sleep secs) (log (Http rq (server (trace w) rq)) w))).
  { apply (Hrounds 0%nat). lia. }
  rewrite Hfirst.
  rewrite IH; [reflexivity |].
  intros i Hi. apply (Hrounds (S i)). lia.
Qed.

(** X4: [create_session] on an instance with its attributes assigned, when
    the creation request is answered 201 with an [id], the first [k] polls
    are answered [starting] or [not_started] and the next one [idle]: with
    more than [k] iterations allowed it returns the identifier, after
    exactly [k] rounds of polling and sleeping 15 and one last poll. *)
Theorem create_session_returns_after_rounds
    (w : world) (j c u h session_id : pyval) (d : list (string * pyval)) (k fuel : nat) :
  self w !! "jars" = Some j ->
  self w !! "config" = Some c ->
  self w !! "livy_url" = Some u ->
  self w !! "headers" = Some h ->
  let data := PDict [("kind", PStr "spark"); ("proxyUser", PStr "hadoop");
                     ("jars", j); ("conf", c)] in
  let post := mkRequest POST (str u +:+ "/sessions") (Some (json_dumps data)) h in
  let created := server (trace w) post in
  status_code created = codes_created ->
  json_body created = Some (PDict d) ->
  dict_lookup "id" d = Some session_id ->
  let poll := mkRequest GET (str u +:+ "/sessions/" +:+ str session_id) None h in
  let w1 := log (Http post created) w in
  (forall i, (i < k)%nat ->
     let rs := server (trace (after_rounds server poll 15 i w1)) poll in
     reported_state rs = Some (PStr "starting") \/
     reported_state rs = Some (PStr "not_started")) ->
  let wk := after_rounds server poll 15 k w1 in
  reported_state (server (trace wk) poll) = Some (PStr "idle") ->
  (k < fuel)%nat ->
  create_session fuel w = (Returned session_id, log (Http poll (server (trace wk) poll)) wk).
Proof.
  intros Hj Hc Hu Hh data post created Hcode Hbody Hid poll w1 Hrounds wk Hidle Hfuel.
  unfold create_session, requests_post. run. fold data post created w1.
  rewrite Hcode, Z.eqb_refl. run. simpl getitem. rewrite Hid. run.
  replace fuel with (k + S (fuel - S k))%nat by lia.
  rewrite (while_true_after_rounds _ poll 15 k w1).
  - fold wk. rewrite while_true_S.
    apply reported_state_body in Hidle. destruct Hidle as (dk & Hbodyk & Hst).
    rewrite (create_session_poll_run wk u h session_id dk); try assumption;
      try (unfold wk; rewrite self_after_rounds; assumption).
    rewrite <- Hst. reflexivity.
  - intros i Hi. specialize (Hrounds i Hi). cbv zeta in Hrounds.
    set (wi := after_rounds server poll 15 i w1) in *.
    assert (Hgo : exists di, json_body (server (trace wi) poll) = Some (PDict di) /\
                  (default PNone (dict_lookup "state" di) = PStr "starting" \/
                   default PNone (dict_lookup "state" di) = PStr "not_started")).
    { destruct Hrounds as [Hst | Hst];
        apply reported_state_body in Hst; destruct Hst as (di & Hb & Hst);
        exists di; split; auto. }
    destruct Hgo as (di & Hb & Hst).
    rewrite (create_session_poll_run wi u h session_id di); try assumption;
      try (unfold wi; rewrite self_after_rounds; assumption).
    fold poll.
    rewrite after_rounds_S. fold wi. destruct Hst as [-> | ->]; reflexivity.
Qed.

(** X5: [get_output] on an instance with its attributes assigned, when the
    first [k] polls are answered [running] or [waiting] and the next one
    [available] with status [ok] and a data mapping: with more than [k]
    iterations allowed it returns what [data.get("text/plain")] gives, after
    exactly [k] rounds of polling and sleeping 15 and one last poll. *)
Theorem get_output_returns_after_rounds
    (w : world) (u s h statement_id : pyval)
    (d out dat : list (string * pyval)) (k fuel : nat) :
  self w !! "livy_url" = Some u ->
  self w !! "session_id" = Some s ->
  self w !! "headers" = Some h ->
  let poll := mkRequest GET (str u +:+ "/sessions/" +:+ str s +:+ "/statements/"
                             +:+ str statement_id) None h in
  (forall i, (i < k)%nat ->
     let rs := server (trace (after_rounds server poll 15 i w)) poll in
     reported_state rs = Some (PStr "running") \/
     reported_state rs = Some (PStr "waiting")) ->
  let wk := after_rounds server poll 15 k w in
  let rs := server (trace wk) poll in
  json_body rs = Some (PDict d) ->
  dict_lookup "state" d = Some (PStr "available") ->
  dict_lookup "output" d = Some (PDict out) ->
  dict_lookup "status" out = Some (PStr "ok") ->
  dict_lookup "data" out = Some (PDict dat) ->
  (k < fuel)%nat ->
  get_output fuel statement_id w =
    (Returned (default PNone (dict_lookup "text/plain" dat)), log (Http poll rs) wk).
Proof.
  intros Hu Hs Hh poll Hrounds wk rs Hbody Hstate Hout Hstatus Hdata Hfuel.
  unfold get_output.
  replace fuel with (k + S (fuel - S k))%nat by lia.
  rewrite (while_true_after_rounds _ poll 15 k w).
  - fold wk. rewrite while_true_S.
    rewrite (get_output_poll_run wk u s h statement_id d); try assumption;
      try (unfold wk; rewrite self_after_rounds; assumption).
    rewrite Hstate. cbn. rewrite Hout. cbn. rewrite Hstatus. cbn.
    rewrite Hdata. reflexivity.
  - intros i Hi. specialize (Hrounds i Hi). cbv zeta in Hrounds.
    set (wi := after_rounds server poll 15 i w) in *.
    assert (Hgo : exists di, json_body (server (trace wi) poll) = Some (PDict di) /\
                  (default PNone (dict_lookup "state" di) = PStr "running" \/
                   default PNone (dict_lookup "state" di) = PStr "waiting")).
    { destruct Hrounds as [Hst | Hst];
        apply reported_state_body in Hst; destruct Hst as (di & Hb & Hst);
        exists di; split; auto. }
    destruct Hgo as (di & Hb & Hst).
    rewrite (get_output_poll_run wi u s h statement_id di); try assumption;
      try (unfold wi; rewrite self_after_rounds; assumption).
    fold poll. rewrite after_rounds_S. fold wi.
    destruct Hst as [-> | ->]; reflexivity.
Qed.

(** What [k] rounds add to a trace: [k] requests and [k] sleeps. *)
Lemma after_rounds_measure (rq : request) (secs : Z) (k : nat) (w : world) :
  requests_sent (trace (after_rounds server rq secs k w)) = (requests_sent (trace w) + k)%nat
  /\ time_slept (trace (after_rounds server rq secs k w)) =
     time_slept (trace w) + secs * Z.of_nat k.
Proof.
  induction k as [| k [IHr IHt]]; [simpl; split; lia |].
  rewrite after_rounds_S. cbn [trace log].
  rewrite !requests_sent_snoc, !time_slept_snoc, IHr, IHt. split; lia.
Qed.

(** *** What a returned value tells about the polls *)

Lemma bind_returned {A B} (m : M A) (k : A -> M B) (w w' : world) (b : B) :
  bind m k w = (Returned b, w') ->
  exists a w1, m w = (Returned a, w1) /\ k a w1 = (Returned b, w').
Proof.
  unfold bind. destruct (m w) as [[a | e |] w1]; try discriminate.
  intros H. exists a, w1. split; [reflexivity | exact H].
Qed.

Lemma getattr_returned (name : string) (w w' : world) (v : pyval) :
  getattr name w = (Returned v, w') -> w' = w /\ self w !! name = Some v.
Proof.
  unfold getattr. destruct (self w !! name); intros [= <- <-]. split; reflexivity.
Qed.

Lemma send_returned (rq : request) (w w' : world) (rs : response) :
  send rq w = (Returned rs, w') ->
  rs = server (trace w) rq /\ w' = log (Http rq rs) w.
Proof. intros [= <- <-]. split; reflexivity. Qed.

Lemma json_returned (r : response) (w w' : world) (v : pyval) :
  json r w = (Returned v, w') -> w' = w /\ json_body r = Some v.
Proof.
  unfold json. destruct (json_body r); intros [= <- <-]. split; reflexivity.
Qed.

Lemma get_returned (v : pyval) (key : string) (w w' : world) (x : pyval) :
  get v key w = (Returned x, w') ->
  w' = w /\ exists d, v = PDict d /\ x = default PNone (dict_lookup key d).
Proof.
  destruct v; intros [= <- <-]. split; [reflexivity |]. eexists. split; reflexivity.
Qed.

Lemma getitem_returned (v : pyval) (key : string) (w w' : world) (x : pyval) :
  getitem v key w = (Returned x, w') ->
  w' = w /\ exists d, v = PDict d /\ dict_lookup key d = Some x.
Proof.
  destruct v; try (intros [=]; fail). simpl.
  destruct (dict_lookup key d) eqn:E; intros [= <- <-].
  split; [reflexivity |]. eexists. split; [reflexivity | exact E].
Qed.

Ltac step H :=
  let a := fresh "a" in
  let w1 := fresh "w" in
  let H1 := fresh "Hstep" in
  apply bind_returned in H; destruct H as (a & w1 & H1 & H);
  first
    [ apply getattr_returned in H1; destruct H1 as [-> H1]
    | apply send_returned in H1; destruct H1 as [-> ->]
    | apply json_returned in H1; destruct H1 as [-> H1]
    | apply get_returned in H1;
      let d := fresh "d" in
      let E := fresh "Hdict" in
      destruct H1 as (-> & d & E & ->); try subst
    | apply getitem_returned in H1;
      let d := fresh "d" in
      let E := fresh "Hdict" in
      destruct H1 as (-> & d & E & H1); try subst ].

Lemma default_is_dict (o : option pyval) (d : list (string * pyval)) :
  default PNone o = PDict d -> o = Some (PDict d).
Proof. destruct o; simpl; [congruence | discriminate]. Qed.

Lemma default_is_str (o : option pyval) (x : string) :
  default PNone o = PStr x -> o = Some (PStr x).
Proof. destruct o; simpl; [congruence | discriminate]. Qed.

Lemma snoc_app {A} (t : list A) (e : A) (evs : list A) :
  ((t ++ [e]) ++ evs)%list = (t ++ e :: evs)%list.
Proof. rewrite <- app_assoc. reflexivity. Qed.

(** The ways one iteration of [get_output] can end without an exception. *)
Lemma get_output_poll_returned (statement_id : pyval) (w w' : world) (r : option pyval) :
  get_output_poll statement_id w = (Returned r, w') ->
  exists u s h,
    self w !! "livy_url" = Some u /\
    self w !! "session_id" = Some s /\
    self w !! "headers" = Some h /\
    let rq := mkRequest GET (str u +:+ "/sessions/" +:+ str s +:+ "/statements/"
                             +:+ str statement_id) None h in
    let rs := server (trace w) rq in
    match r with
    | None => w' = log (Http rq rs) w \/ w' = log (Sleep 15) (log (Http rq rs) w)
    | Some v =>
        w' = log (Http rq rs) w /\
        exists d out dat,
          json_body rs = Some (PDict d) /\
          dict_lookup "state" d = Some (PStr "available") /\
          dict_lookup "output" d = Some (PDict out) /\
          dict_lookup "status" out = Some (PStr "ok") /\
          dict_lookup "data" out = Some (PDict dat) /\
          v = default PNone (dict_lookup "text/plain" dat)
    end.
Proof.
  unfold get_output_poll, requests_get. intros H.
  do 6 step H.
  exists a, a0, a1. repeat (split; [assumption |]). cbv zeta.
  destruct (py_eq_str _ "error"); [discriminate H |].
  destruct (py_in_strs _ _); [injection H as <- <-; right; reflexivity |].
  destruct (py_eq_str _ "available") eqn:Hav; [| injection H as <- <-; left; reflexivity].
  apply py_eq_str_true, default_is_str in Hav.
  do 3 step H. rewrite Hstep2 in Hstep3. injection Hstep3 as <-.
  destruct (py_eq_str _ "ok") eqn:Hok; [| discriminate H].
  apply py_eq_str_true, default_is_str in Hok.
  do 2 step H. injection H as <- <-.
  split; [reflexivity |].
  repeat match goal with
         | E : default PNone _ = PDict _ |- _ => apply default_is_dict in E
         end.
  simplify_eq.
  eexists _, _, _. repeat (split; [eassumption |]). reflexivity.
Qed.

(** X6: [get_output] returns a value only from a poll that reported state
    [available] with an output of status [ok]: the attributes it reads are
    assigned, the last event of the trace is that poll, and the value is
    what [data.get("text/plain")] gives on its body. *)
Theorem get_output_returned_from_available_ok
    (fuel : nat) (statement_id : pyval) (w w' : world) (v : pyval) :
  get_output fuel statement_id w = (Returned v, w') ->
  exists u s h (evs : list event) d out dat,
    self w !! "livy_url" = Some u /\
    self w !! "session_id" = Some s /\
    self w !! "headers" = Some h /\
    let rq := mkRequest GET (str u +:+ "/sessions/" +:+ str s +:+ "/statements/"
                             +:+ str statement_id) None h in
    let t := (trace w ++ evs)%list in
    let rs := server t rq in
    w' = {| self := self w; trace := (t ++ [Http rq rs])%list |} /\
    json_body rs = Some (PDict d) /\
    dict_lookup "state" d = Some (PStr "available") /\
    dict_lookup "output" d = Some (PDict out) /\
    dict_lookup "status" out = Some (PStr "ok") /\
    dict_lookup "data" out = Some (PDict dat) /\
    v = default PNone (dict_lookup "text/plain" dat).
Proof.
  unfold get_output. revert w.
  induction fuel as [| fuel IH]; intros w H; [discriminate H |].
  rewrite while_true_S in H.
  destruct (get_output_poll statement_id w) as [[[v0 |] | e |] w1] eqn:Hpoll;
    try discriminate H.
  - injection H as <- <-.
    apply get_output_poll_returned in Hpoll.
    destruct Hpoll as (u & s & h & Hu & Hs & Hh & -> & d & out & dat & Hrest).
    exists u, s, h, [], d, out, dat. repeat (split; [assumption |]).
    cbv zeta. rewrite app_nil_r. split; [reflexivity | exact Hrest].
  - apply get_output_poll_returned in Hpoll.
    destruct Hpoll as (u & s & h & Hu & Hs & Hh & Hw1).
    apply IH in H.
    destruct H as (u' & s' & h' & evs & d & out & dat & Hu' & Hs' & Hh' & Hw' & Hrest).
    assert (Hself : self w1 = self w) by (destruct Hw1 as [-> | ->]; reflexivity).
    rewrite Hself in Hu', Hs', Hh', Hw'.
    assert (u' = u) as -> by congruence.
    assert (s' = s) as -> by congruence.
    assert (h' = h) as -> by congruence.
    destruct Hw1 as [-> | ->]; cbn [trace log] in Hw', Hrest.
    + rewrite !snoc_app in Hw', Hrest.
      eexists u, s, h, (_ :: evs), d, out, dat. repeat (split; [assumption |]).
      split; [exact Hw' | exact Hrest].
    + rewrite !snoc_app in Hw', Hrest.
      eexists u, s, h, (_ :: _ :: evs), d, out, dat. repeat (split; [assumption |]).
      split; [exact Hw' | exact Hrest].
Qed.

(** The ways one iteration of the loop of [create_session] can end without
    an exception. *)
Lemma create_session_poll_returned (session_id : pyval) (w w' : world) (r : option pyval) :
  create_session_poll session_id w = (Returned r, w') ->
  exists u h,
    self w !! "livy_url" = Some u /\
    self w !! "headers" = Some h /\
    let rq := mkRequest GET (str u +:+ "/sessions/" +:+ str session_id) None h in
    let rs := server (trace w) rq in
    match r with
    | None =>
        w' = log (Sleep 15) (log (Http rq rs) w) /\
        (reported_state rs = Some (PStr "starting") \/
         reported_state rs = Some (PStr "not_started"))
    | Some v =>
        v = session_id /\ w' = log (Http rq rs) w /\
        reported_state rs = Some (PStr "idle")
    end.
Proof.
  unfold create_session_poll, requests_get. intros H.
  do 5 step H.
  exists a, a0. repeat (split; [assumption |]). cbv zeta.
  unfold reported_state. rewrite Hstep1.
  destruct (py_eq_str _ "idle") eqn:Hidle.
  - injection H as <- <-. apply py_eq_str_true in Hidle. rewrite Hidle.
    repeat split; reflexivity.
  - destruct (py_in_strs _ _) eqn:Hin; [| discriminate H].
    injection H as <- <-. split; [reflexivity |].
    unfold py_in_strs in Hin. simpl in Hin.
    apply orb_true_iff in Hin. destruct Hin as [Hin | Hin].
    + apply py_eq_str_true in Hin. rewrite Hin. left. reflexivity.
    + rewrite orb_false_r in Hin. apply py_eq_str_true in Hin. rewrite Hin.
      right. reflexivity.
Qed.

(** X7: [create_session] returns a value only as the [id] of a creation
    answer with status 201, and only from a poll that reported state
    [idle]: the trace gained the creation request first and that poll
    last. *)
Theorem create_session_returned_after_idle
    (fuel : nat) (w w' : world) (v : pyval) :
  create_session fuel w = (Returned v, w') ->
  exists j c u h (evs : list event) d,
    self w !! "jars" = Some j /\
    self w !! "config" = Some c /\
    self w !! "livy_url" = Some u /\
    self w !! "headers" = Some h /\
    let data := PDict [("kind", PStr "spark"); ("proxyUser", PStr "hadoop");
                       ("jars", j); ("conf", c)] in
    let post := mkRequest POST (str u +:+ "/sessions") (Some (json_dumps data)) h in
    let created := server (trace w) post in
    status_code created = codes_created /\
    json_body created = Some (PDict d) /\
    dict_lookup "id" d = Some v /\
    let poll := mkRequest GET (str u +:+ "/sessions/" +:+ str v) None h in
    let t := (trace w ++ Http post created :: evs)%list in
    w' = {| self := self w; trace := (t ++ [Http poll (server t poll)])%list |} /\
    reported_state (server t poll) = Some (PStr "idle").
Proof.
  unfold create_session, requests_post. intros H.
  do 5 step H.
  destruct (_ =? _)%Z eqn:Hcode; [| discriminate H].
  apply Z.eqb_eq in Hcode.
  do 2 step H.
  match type of H with while_true _ _ ?x = _ => set (wc := x) in * end.
  match type of H with while_true _ (_ ?x) _ = _ => rename x into sid end.
  assert (Hloop : forall n w0,
    self w0 = self w ->
    while_true n (create_session_poll sid) w0 = (Returned v, w') ->
    v = sid /\
    exists evs : list event,
      let poll := mkRequest GET (str a1 +:+ "/sessions/" +:+ str sid) None a2 in
      let t := (trace w0 ++ evs)%list in
      w' = {| self := self w; trace := (t ++ [Http poll (server t poll)])%list |} /\
      reported_state (server t poll) = Some (PStr "idle")).
  { clear H. induction n as [| n IH]; intros w0 Hself H; [discriminate H |].
    rewrite while_true_S in H.
    destruct (create_session_poll sid w0) as [[[v0 |] | e |] w2] eqn:Hpoll;
      try discriminate H.
    - injection H as <- <-.
      apply create_session_poll_returned in Hpoll.
      destruct Hpoll as (u & h & Hu & Hh & -> & -> & Hidle).
      rewrite Hself in Hu, Hh. simplify_eq. split; [reflexivity |].
      exists []. cbv zeta. rewrite app_nil_r. unfold log. rewrite Hself.
      split; [reflexivity | exact Hidle].
    - apply create_session_poll_returned in Hpoll.
      destruct Hpoll as (u & h & Hu & Hh & -> & _).
      rewrite Hself in Hu, Hh. simplify_eq.
      apply IH in H; [| exact Hself].
      destruct H as (Hv & evs & Hw' & Hidle). split; [exact Hv |].
      cbn [trace log] in Hw', Hidle.
      rewrite !snoc_app in Hw', Hidle.
      eexists (_ :: _ :: evs). split; [exact Hw' | exact Hidle]. }
  apply Hloop in H; [| reflexivity].
  destruct H as (-> & evs & Hw' & Hidle). subst wc.
  cbn [trace log] in Hw', Hidle. rewrite !snoc_app in Hw', Hidle.
  exists a, a0, a1, a2, evs. eexists. repeat (split; [eassumption |]).
  exact Hidle.
Qed.

(** *** Unassigned attributes and malformed answers *)

(** X8: a method called on an instance that lacks one of [livy_url],
    [session_id], [headers] raises [AttributeError] for the first one it
    reads, and sends nothing. *)
Theorem no_request_without_attributes (w : world) (fuel : nat) (arg : pyval) :
  self w !! "livy_url" = None \/ self w !! "session_id" = None \/
  self w !! "headers" = None ->
  let missing :=
    match self w !! "livy_url", self w !! "session_id" with
    | None, _ => "livy_url"
    | Some _, None => "session_id"
    | Some _, Some _ => "headers"
    end in
  remove_session w = (Raised (AttributeError missing), w)
  /\ submit_statement fuel arg w = (Raised (AttributeError missing), w)
  /\ get_output (S fuel) arg w = (Raised (AttributeError missing), w).
Proof.
  intros Hmissing.
  unfold remove_session, submit_statement, get_output, get_output_poll.
  cbn [while_true]. unfold bind, getattr.
  destruct (self w !! "livy_url"); [| repeat split; reflexivity].
  destruct (self w !! "session_id"); [| repeat split; reflexivity].
  destruct (self w !! "headers"); [| repeat split; reflexivity].
  destruct Hmissing as [H | [H | H]]; discriminate H.
Qed.

(** X9: [create_session] on an instance that lacks one of [jars],
    [config], [livy_url], [headers] raises [AttributeError] for the first
    one it reads, and sends nothing. *)
Theorem create_session_without_attributes (w : world) (fuel : nat) :
  self w !! "jars" = None \/ self w !! "config" = None \/
  self w !! "livy_url" = None \/ self w !! "headers" = None ->
  let missing :=
    match self w !! "jars", self w !! "config", self w !! "livy_url" with
    | None, _, _ => "jars"
    | Some _, None, _ => "config"
    | Some _, Some _, None => "livy_url"
    | Some _, Some _, Some _ => "headers"
    end in
  create_session fuel w = (Raised (AttributeError missing), w).
Proof.
  intros Hmissing. unfold create_session, bind, getattr.
  destruct (self w !! "jars"); [| reflexivity].
  destruct (self w !! "config"); [| reflexivity].
  destruct (self w !! "livy_url"); [| reflexivity].
  destruct (self w !! "headers"); [| reflexivity].
  destruct Hmissing as [H | [H | [H | H]]]; discriminate H.
Qed.

(** X10: when the creation request is answered 201 but the body gives no
    identifier, [create_session] raises without polling: [JSONDecodeError]
    on a body that is not JSON, [TypeError] on a JSON value that is not an
    object, [KeyError] on an object without [id]. *)
Theorem create_session_created_without_id
    (w : world) (j c u h : pyval) (fuel : nat) :
  self w !! "jars" = Some j ->
  self w !! "config" = Some c ->
  self w !! "livy_url" = Some u ->
  self w !! "headers" = Some h ->
  let data := PDict [("kind", PStr "spark"); ("proxyUser", PStr "hadoop");
                     ("jars", j); ("conf", c)] in
  let post := mkRequest POST (str u +:+ "/sessions") (Some (json_dumps data)) h in
  let created := server (trace w) post in
  status_code created = codes_created ->
  let w1 := log (Http post created) w in
  (json_body created = None ->
   create_session fuel w = (Raised JSONDecodeError, w1))
  /\ (forall v, json_body created = Some v -> (forall d, v <> PDict d) ->
      create_session fuel w = (Raised TypeError, w1))
  /\ (forall d, json_body created = Some (PDict d) -> dict_lookup "id" d = None ->
      create_session fuel w = (Raised (KeyError "id"), w1)).
Proof.
  intros Hj Hc Hu Hh data post created Hcode w1.
  assert (Hrun : create_session fuel w =
    (let* body := json created in
     let* session_id := getitem body "id" in
     while_true fuel (create_session_poll session_id)) w1).
  { unfold create_session, requests_post. run. fold data post created w1.
    rewrite Hcode, Z.eqb_refl. reflexivity. }
  rewrite Hrun. split; [| split].
  - intros Hbody. unfold bind, json. rewrite Hbody. reflexivity.
  - intros v Hbody Hv. erewrite bind_json by eassumption.
    destruct v; try reflexivity. exfalso. eapply Hv. reflexivity.
  - intros d Hbody Hid. erewrite bind_json by eassumption.
    unfold bind. simpl. rewrite Hid. reflexivity.
Qed.

(** X11: when the submission request is answered 201 but the body gives no
    identifier, [submit_statement] raises without polling:
    [JSONDecodeError] on a body that is not JSON, [TypeError] on a JSON
    value that is not an object, [KeyError] on an object without [id]. *)
Theorem submit_statement_created_without_id
    (w : world) (u s h statement : pyval) (fuel : nat) :
  self w !! "livy_url" = Some u ->
  self w !! "session_id" = Some s ->
  self w !! "headers" = Some h ->
  let post := mkRequest POST (str u +:+ "/sessions/" +:+ str s +:+ "/statements")
                        (Some (json_dumps (PDict [("code", statement)]))) h in
  let created := server (trace w) post in
  status_code created = codes_created ->
  let w1 := log (Http post created) w in
  (json_body created = None ->
   submit_statement fuel statement w = (Raised JSONDecodeError, w1))
  /\ (forall v, json_body created = Some v -> (forall d, v <> PDict d) ->
      submit_statement fuel statement w = (Raised TypeError, w1))
  /\ (forall d, json_body created = Some (PDict d) -> dict_lookup "id" d = None ->
      submit_statement fuel statement w = (Raised (KeyError "id"), w1)).
Proof.
  intros Hu Hs Hh post created Hcode w1.
  assert (Hrun : submit_statement fuel statement w =
    (let* body := json created in
     let* statement_id := getitem body "id" in
     get_output fuel statement_id) w1).
  { unfold submit_statement, requests_post. run. fold post created w1.
    rewrite Hcode, Z.eqb_refl. reflexivity. }
  rewrite Hrun. split; [| split].
  - intros Hbody. unfold bind, json. rewrite Hbody. reflexivity.
  - intros v Hbody Hv. erewrite bind_json by eassumption.
    destruct v; try reflexivity. exfalso. eapply Hv. reflexivity.
  - intros d Hbody Hid. erewrite bind_json by eassumption.
    unfold bind. simpl. rewrite Hid. reflexivity.
Qed.

Lemma get_non_dict (v : pyval) (key : string) :
  (forall d, v <> PDict d) -> get v key = raise (AttributeError "get").
Proof. intros Hv. destruct v; try reflexivity. exfalso. eapply Hv. reflexivity. Qed.

Lemma default_not_dict (o : option pyval) :
  (forall d, o <> Some (PDict d)) -> forall d, default PNone o <> PDict d.
Proof.
  intros Ho d. destruct o as [v |]; cbn; [| discriminate].
  intros E. apply (Ho d). f_equal. exact E.
Qed.

(** X12: polls of [get_output] whose answer lacks the expected shape end
    the loop with a run-time error, the poll being the only event:
    [JSONDecodeError] on a body that is not JSON, [AttributeError] on a
    JSON value that is not an object, on state [available] without an
    output object, and on status [ok] without a data object. *)
Theorem get_output_malformed_poll
    (w : world) (u s h statement_id : pyval) (fuel : nat) :
  self w !! "livy_url" = Some u ->
  self w !! "session_id" = Some s ->
  self w !! "headers" = Some h ->
  let rq := mkRequest GET (str u +:+ "/sessions/" +:+ str s +:+ "/statements/"
                           +:+ str statement_id) None h in
  let rs := server (trace w) rq in
  let w1 := log (Http rq rs) w in
  (json_body rs = None ->
   get_output (S fuel) statement_id w = (Raised JSONDecodeError, w1))
  /\ (forall v, json_body rs = Some v -> (forall d, v <> PDict d) ->
      get_output (S fuel) statement_id w = (Raised (AttributeError "get"), w1))
  /\ (forall d, json_body rs = Some (PDict d) ->
      dict_lookup "state" d = Some (PStr "available") ->
      (forall out, dict_lookup "output" d <> Some (PDict out)) ->
      get_output (S fuel) statement_id w = (Raised (AttributeError "get"), w1))
  /\ (forall d out, json_body rs = Some (PDict d) ->
      dict_lookup "state" d = Some (PStr "available") ->
      dict_lookup "output" d = Some (PDict out) ->
      dict_lookup "status" out = Some (PStr "ok") ->
      (forall dat, dict_lookup "data" out <> Some (PDict dat)) ->
      get_output (S fuel) statement_id w = (Raised (AttributeError "get"), w1)).
Proof.
  intros Hu Hs Hh rq rs w1. unfold get_output.
  assert (Hrun : get_output_poll statement_id w =
    (let* body := json rs in
     let* state := get body "state" in
     if py_eq_str state "error" then
       raise (Exception "Spark Error: Statement execution failed")
     else if py_in_strs state ["running"; "waiting"] then sleep 15;; ret None
     else if py_eq_str state "available" then
       let* body' := json rs in
       let* output := get body' "output" in
       let* status := get output "status" in
       if py_eq_str status "ok" then
         let* data := get output "data" in
         let* text := get data "text/plain" in
         ret (Some text)
       else raise (Exception "Livy/Spark Error: Statement execution failed.")
     else ret None) w1).
  { unfold get_output_poll, requests_get. run. reflexivity. }
  repeat split.
  - intros Hbody. rewrite while_true_S, Hrun. unfold bind, json. rewrite Hbody.
    reflexivity.
  - intros v Hbody Hv. rewrite while_true_S, Hrun.
    erewrite bind_json by eassumption. rewrite (get_non_dict v) by assumption.
    reflexivity.
  - intros d Hbody Hstate Hout. rewrite while_true_S.
    rewrite (get_output_poll_run w u s h statement_id d Hu Hs Hh Hbody).
    rewrite Hstate. cbn [default from_option id py_eq_str py_in_strs existsb].
    change (String.eqb "available" "error") with false.
    change (String.eqb "available" "running") with false.
    change (String.eqb "available" "waiting") with false.
    change (String.eqb "available" "available") with true.
    cbn [orb]. rewrite get_dict, bind_ret.
    rewrite (get_non_dict (default PNone (dict_lookup "output" d)))
      by (apply default_not_dict; assumption).
    reflexivity.
  - intros d out Hbody Hstate Hout Hstatus Hdata. rewrite while_true_S.
    rewrite (get_output_poll_run w u s h statement_id d Hu Hs Hh Hbody).
    rewrite Hstate. cbn [default from_option id py_eq_str py_in_strs existsb].
    change (String.eqb "available" "error") with false.
    change (String.eqb "available" "running") with false.
    change (String.eqb "available" "waiting") with false.
    change (String.eqb "available" "available") with true.
    cbn [orb]. rewrite get_dict, bind_ret, Hout. cbn [default from_option id].
    rewrite get_dict, bind_ret, Hstatus. cbn [default from_option id py_eq_str].
    change (String.eqb "ok" "ok") with true. cbv iota.
    rewrite get_dict, bind_ret.
    rewrite (get_non_dict (default PNone (dict_lookup "data" out)))
      by (apply default_not_dict; assumption).
    reflexivity.
Qed.

(** X13: polls of the session-creation loop whose answer is not a JSON
    object end the loop with a run-time error, the poll being the only
    event: [JSONDecodeError] on a body that is not JSON, [AttributeError]
    on a JSON value that is not an object. *)
Theorem create_session_malformed_poll
    (w : world) (u h session_id : pyval) (fuel : nat) :
  self w !! "livy_url" = Some u ->
  self w !! "headers" = Some h ->
  let rq := mkRequest GET (str u +:+ "/sessions/" +:+ str session_id) None h in
  let rs := server (trace w) rq in
  let w1 := log (Http rq rs) w in
  (json_body rs = None ->
   while_true (S fuel) (create_session_poll session_id) w = (Raised JSONDecodeError, w1))
  /\ (forall v, json_body rs = Some v -> (forall d, v <> PDict d) ->
      while_true (S fuel) (create_session_poll session_id) w =
      (Raised (AttributeError "get"), w1)).
Proof.
  intros Hu Hh rq rs w1.
  assert (Hrun : create_session_poll session_id w =
    (let* body := json rs in
     let* session_state := get body "state" in
     if py_eq_str session_state "idle" then ret (Some session_id)
     else if py_in_strs session_state ["starting"; "not_started"] then sleep 15;; ret None
     else raise (Exception "Livy Error: Spark session initialization failed.")) w1).
  { unfold create_session_poll, requests_get. run. reflexivity. }
  split.
  - intros Hbody. rewrite while_true_S, Hrun. unfold bind, json. rewrite Hbody.
    reflexivity.
  - intros v Hbody Hv. rewrite while_true_S, Hrun.
    erewrite bind_json by eassumption. rewrite (get_non_dict v) by assumption.
    reflexivity.
Qed.

(** *** What the methods can raise and send *)

Ltac pick :=
  first
    [ solve [eexists; reflexivity]
    | solve [reflexivity]
    | solve [constructor]
    | left; pick
    | right; pick ].

Ltac classes :=
  repeat first
    [ apply raises_only_while_true
    | apply raises_only_bind; [| intros ?]
    | apply raises_only_ret
    | apply raises_only_sleep
    | apply raises_only_send
    | apply raises_only_getattr
    | apply raises_only_json
    | apply raises_only_get
    | apply raises_only_getitem
    | apply raises_only_raise
    | match goal with |- raises_only _ (if ?b then _ else _) => destruct b end ];
  cbv beta; try pick.


(** X15: [create_session] leaves every attribute of the instance as it
    found it, however it ends: the identifier it obtains is only returned,
    and storing it is left to the caller. *)
Theorem create_session_leaves_self_unchanged (fuel : nat) (w : world) :
  self (snd (create_session fuel w)) = self w.
Proof.
  revert w. change (preserves_self (create_session fuel)).
  unfold create_session, create_session_poll, requests_post, requests_get.
  repeat first
    [ apply preserves_self_while_true
    | apply preserves_self_bind; [| intros ?]
    | match goal with |- preserves_self (if ?b then _ else _) => destruct b end
    | solve [auto with frame] ].
Qed.

Lemma emits_nothing {A} (P : event -> Prop) (m : M A) :
  (forall w, snd (m w) = w) -> emits P m.
Proof.
  intros Hm w. exists []. rewrite Hm, app_nil_r. split; [reflexivity | constructor].
Qed.

Lemma emits_ret {A} (P : event -> Prop) (a : A) : emits P (ret a).
Proof. apply emits_nothing. reflexivity. Qed.

Lemma emits_raise {A} (P : event -> Prop) (e : pyexc) : emits P (@raise A e).
Proof. apply emits_nothing. reflexivity. Qed.

Lemma emits_getattr (P : event -> Prop) (name : string) : emits P (getattr name).
Proof.
  apply emits_nothing. intros w. unfold getattr. destruct (self w !! name); reflexivity.
Qed.

Lemma emits_json (P : event -> Prop) (r : response) : emits P (json r).
Proof.
  apply emits_nothing. intros w. unfold json. destruct (json_body r); reflexivity.
Qed.

Lemma emits_get (P : event -> Prop) (v : pyval) (key : string) : emits P (get v key).
Proof. apply emits_nothing. intros w. destruct v; reflexivity. Qed.

Lemma emits_getitem (P : event -> Prop) (v : pyval) (key : string) :
  emits P (getitem v key).
Proof.
  apply emits_nothing. intros w. destruct v; try reflexivity.
  simpl. destruct (dict_lookup key d); reflexivity.
Qed.

Lemma emits_sleep (P : event -> Prop) (secs : Z) : P (Sleep secs) -> emits P (sleep secs).
Proof. intros HP w. exists [Sleep secs]. split; [reflexivity | repeat constructor; exact HP]. Qed.

Lemma emits_send (P : event -> Prop) (rq : request) :
  (forall rs, P (Http rq rs)) -> emits P (send rq).
Proof.
  intros HP w. eexists [_]. split; [reflexivity | repeat constructor; apply HP].
Qed.

Lemma emits_bind {A B} (P : event -> Prop) (m : M A) (k : A -> M B) :
  emits P m -> (forall a, emits P (k a)) -> emits P (bind m k).
Proof.
  intros Hm Hk w. unfold bind. destruct (Hm w) as (evs1 & Ht1 & HP1).
  destruct (m w) as [[a | e |] w1]; simpl in *; try (exists evs1; split; assumption).
  destruct (Hk a w1) as (evs2 & Ht2 & HP2).
  exists (evs1 ++ evs2)%list. rewrite Ht2, Ht1, app_assoc.
  split; [reflexivity | apply Forall_app; split; assumption].
Qed.

Lemma emits_while_true {A} (P : event -> Prop) (fuel : nat) (body : M (option A)) :
  emits P body -> emits P (while_true fuel body).
Proof.
  intros Hbody. induction fuel as [| fuel IH].
  - apply emits_nothing. reflexivity.
  - simpl. apply emits_bind; [assumption |].
    intros [a |]; [apply emits_ret | exact IH].
Qed.

Ltac traffic :=
  repeat first
    [ apply emits_while_true
    | apply emits_bind; [| intros ?]
    | apply emits_ret
    | apply emits_raise
    | apply emits_getattr
    | apply emits_json
    | apply emits_get
    | apply emits_getitem
    | apply emits_sleep; simpl; tauto
    | apply emits_send; intros ?; simpl; tauto
    | match goal with |- emits _ (if ?b then _ else _) => destruct b end ].

(** X16: the traffic of each method.  Every method only appends to the
    trace; [get_output] sends nothing but GET requests, [create_session]
    and [submit_statement] nothing but POST and GET requests, and the three
    of them sleep 15 and nothing else; [remove_session] sends nothing but
    DELETE requests and never sleeps.  So a session is deleted by
    [remove_session] only. *)
Theorem traffic_of_the_methods (fuel : nat) (arg : pyval) :
  emits (allowed [GET] [15]) (get_output fuel arg)
  /\ emits (allowed [POST; GET] [15]) (create_session fuel)
  /\ emits (allowed [POST; GET] [15]) (submit_statement fuel arg)
  /\ emits (allowed [DELETE] []) remove_session.
Proof.
  split; [| split; [| split]].
  - unfold get_output, get_output_poll, requests_get. traffic.
  - unfold create_session, create_session_poll, requests_post, requests_get. traffic.
  - unfold submit_statement, get_output, get_output_poll, requests_post, requests_get.
    traffic.
  - unfold remove_session, requests_delete. traffic.
Qed.

(** X17: [create_session] has no bound on its wait.  When the creation
    request is answered 201 with an [id] and every poll is answered
    [starting] or [not_started], [create_session] never returns and never
    raises: after any number [n] of iterations it is still polling, having
    sent the creation request and [n] polls and slept [15 * n]. *)
Theorem create_session_waits_while_starting
    (w : world) (j c u h session_id : pyval) (d : list (string * pyval)) (n : nat) :
  self w !! "jars" = Some j ->
  self w !! "config" = Some c ->
  self w !! "livy_url" = Some u ->
  self w !! "headers" = Some h ->
  let data := PDict [("kind", PStr "spark"); ("proxyUser", PStr "hadoop");
                     ("jars", j); ("conf", c)] in
  let post := mkRequest POST (str u +:+ "/sessions") (Some (json_dumps data)) h in
  let created := server (trace w) post in
  status_code created = codes_created ->
  json_body created = Some (PDict d) ->
  dict_lookup "id" d = Some session_id ->
  let poll := mkRequest GET (str u +:+ "/sessions/" +:+ str session_id) None h in
  (forall t, reported_state (server t poll) = Some (PStr "starting") \/
             reported_state (server t poll) = Some (PStr "not_started")) ->
  let r := create_session n w in
  fst r = Pending
  /\ requests_sent (trace (snd r)) = (requests_sent (trace w) + 1 + n)%nat
  /\ time_slept (trace (snd r)) = time_slept (trace w) + 15 * Z.of_nat n.
Proof.
  intros Hj Hc Hu Hh data post created Hcode Hbody Hid poll Hsrv.
  assert (Hloop : forall k w0,
    self w0 !! "livy_url" = Some u ->
    self w0 !! "headers" = Some h ->
    let r := while_true k (create_session_poll session_id) w0 in
    fst r = Pending
    /\ requests_sent (trace (snd r)) = (requests_sent (trace w0) + k)%nat
    /\ time_slept (trace (snd r)) = time_slept (trace w0) + 15 * Z.of_nat k).
  { induction k as [| k IH]; intros w0 Hu0 Hh0.
    - simpl. repeat split; lia.
    - assert (Hstep : create_session_poll session_id w0 =
        (Returned None, log (Sleep 15) (log (Http poll (server (trace w0) poll)) w0))).
      { destruct (Hsrv (trace w0)) as [Hst | Hst];
          apply reported_state_body in Hst; destruct Hst as (d0 & Hb & Hst);
          rewrite (create_session_poll_run w0 u h session_id d0 Hu0 Hh0 Hb);
          rewrite <- Hst; reflexivity. }
      cbv zeta. rewrite while_true_S, Hstep.
      destruct (IH (log (Sleep 15) (log (Http poll (server (trace w0) poll)) w0)) Hu0 Hh0)
        as (Hp & Hr & Ht).
      rewrite Hp, Hr, Ht. cbn [trace log].
      rewrite !requests_sent_snoc, !time_slept_snoc. repeat split; lia. }
  cbv zeta. unfold create_session, requests_post. run. fold data post created.
  rewrite Hcode, Z.eqb_refl. run. simpl getitem. rewrite Hid. run.
  destruct (Hloop n (log (Http post created) w) Hu Hh) as (Hp & Hr & Ht).
  rewrite Hp, Hr, Ht. cbn [trace log]. rewrite requests_sent_snoc, time_slept_snoc.
  repeat split; lia.
Qed.

End ClientFacts.

(** ** The theorems at work on concrete services *)

Lemma create_session_poll_step_witness :
  while_true 1 (create_session_poll (scripted [session_in "idle"] not_found) repr_any (PStr "0"))
    world0
  = (Returned (PStr "0"), log (Http get_session_0 (session_in "idle")) world0)
  /\ create_session_poll (scripted [session_in "starting"] not_found) repr_any (PStr "0") world0
     = (Returned None,
        log (Sleep 15) (log (Http get_session_0 (session_in "starting")) world0))
  /\ while_true 1 (create_session_poll (scripted [session_in "dead"] not_found) repr_any (PStr "0"))
       world0
     = (Raised SessionInitializationError, log (Http get_session_0 (session_in "dead")) world0).
Proof.
  split; [| split].
  - destruct (create_session_poll_step (scripted [session_in "idle"] not_found) repr_any
                world0 (PStr "http://livy:8998") json_headers (PStr "0")
                [("id", PStr "0"); ("state", PStr "idle")]
                eq_refl eq_refl eq_refl) as (Hidle & _ & _).
    apply (Hidle eq_refl 0%nat).
  - destruct (create_session_poll_step (scripted [session_in "starting"] not_found) repr_any
                world0 (PStr "http://livy:8998") json_headers (PStr "0")
                [("id", PStr "0"); ("state", PStr "starting")]
                eq_refl eq_refl eq_refl) as (_ & Hstarting & _).
    apply (Hstarting (or_introl eq_refl)).
  - destruct (create_session_poll_step (scripted [session_in "dead"] not_found) repr_any
                world0 (PStr "http://livy:8998") json_headers (PStr "0")
                [("id", PStr "0"); ("state", PStr "dead")]
                eq_refl eq_refl eq_refl) as (_ & _ & Hother).
    apply (Hother ltac:(discriminate) ltac:(discriminate) ltac:(discriminate) 0%nat).
Defined.

Lemma get_output_available_ok_witness :
  get_output (scripted [statement_done "ok" (PDict [("text/plain", PStr "2")])] not_found)
    repr_any 1 (PStr "5") world0
  = (Returned (PStr "2"),
     log (Http get_statement_5 (statement_done "ok" (PDict [("text/plain", PStr "2")]))) world0).
Proof.
  apply (get_output_available_ok
           (scripted [statement_done "ok" (PDict [("text/plain", PStr "2")])] not_found)
           repr_any world0 (PStr "http://livy:8998") (PStr "0") json_headers (PStr "5")
           [("id", PStr "5"); ("state", PStr "available");
            ("output", PDict [("status", PStr "ok");
                              ("data", PDict [("text/plain", PStr "2")])])]
           [("status", PStr "ok"); ("data", PDict [("text/plain", PStr "2")])]
           [("text/plain", PStr "2")] (PStr "2") 0%nat); reflexivity.
Defined.

Lemma get_output_without_text_plain_witness :
  get_output (scripted [statement_done "ok" (PDict [("text/html", PStr "<b>2</b>")])] not_found)
    repr_any 1 (PStr "5") world0
  = (Returned PNone,
     log (Http get_statement_5
            (statement_done "ok" (PDict [("text/html", PStr "<b>2</b>")]))) world0).
Proof.
  apply (get_output_without_text_plain
           (scripted [statement_done "ok" (PDict [("text/html", PStr "<b>2</b>")])] not_found)
           repr_any world0 (PStr "http://livy:8998") (PStr "0") json_headers (PStr "5")
           [("id", PStr "5"); ("state", PStr "available");
            ("output", PDict [("status", PStr "ok");
                              ("data", PDict [("text/html", PStr "<b>2</b>")])])]
           [("status", PStr "ok"); ("data", PDict [("text/html", PStr "<b>2</b>")])]
           [("text/html", PStr "<b>2</b>")] 0%nat); reflexivity.
Defined.

Lemma get_output_execution_error_witness :
  (exists e, StatementExecutionError e /\
     get_output (scripted [statement_in "error"] not_found) repr_any 1 (PStr "5") world0
     = (Raised e, log (Http get_statement_5 (statement_in "error")) world0))
  /\ (exists e, StatementExecutionError e /\
     get_output (scripted [statement_done "error" PNone] not_found) repr_any 1 (PStr "5") world0
     = (Raised e, log (Http get_statement_5 (statement_done "error" PNone)) world0)).
Proof.
  split.
  - apply (get_output_execution_error (scripted [statement_in "error"] not_found) repr_any
             world0 (PStr "http://livy:8998") (PStr "0") json_headers (PStr "5")
             [("id", PStr "5"); ("state", PStr "error")] 0%nat
             eq_refl eq_refl eq_refl eq_refl).
    left. reflexivity.
  - apply (get_output_execution_error (scripted [statement_done "error" PNone] not_found)
             repr_any world0 (PStr "http://livy:8998") (PStr "0") json_headers (PStr "5")
             [("id", PStr "5"); ("state", PStr "available");
              ("output", PDict [("status", PStr "error"); ("data", PNone)])] 0%nat
             eq_refl eq_refl eq_refl eq_refl).
    right. split; [reflexivity |].
    exists [("status", PStr "error"); ("data", PNone)].
    split; [reflexivity | discriminate].
Defined.

Lemma get_output_unhandled_state_witness :
  get_output_poll (scripted [statement_in "cancelled"] not_found) repr_any (PStr "5") world0
  = (Returned None, log (Http get_statement_5 (statement_in "cancelled")) world0)
  /\ forall fuel,
      get_output (scripted [statement_in "cancelled"] not_found) repr_any (S fuel) (PStr "5")
        world0
      = get_output (scripted [statement_in "cancelled"] not_found) repr_any fuel (PStr "5")
          (log (Http get_statement_5 (statement_in "cancelled")) world0).
Proof.
  apply (get_output_unhandled_state (scripted [statement_in "cancelled"] not_found) repr_any
           world0 (PStr "http://livy:8998") (PStr "0") json_headers (PStr "5")
           [("id", PStr "5"); ("state", PStr "cancelled")]
           eq_refl eq_refl eq_refl eq_refl); discriminate.
Defined.

Lemma create_session_rejected_witness :
  create_session (scripted [reply 500 PNone] not_found) dumps_any repr_any 7 world0
  = (Raised (SessionCreationError 500), log (Http post_session (reply 500 PNone)) world0).
Proof.
  apply (create_session_rejected (scripted [reply 500 PNone] not_found) dumps_any repr_any
           world0 (PList []) (PDict []) (PStr "http://livy:8998") json_headers 7%nat
           eq_refl eq_refl eq_refl eq_refl).
  discriminate.
Defined.

Lemma remove_session_outcome_witness :
  remove_session (scripted [reply 200 (PDict [("msg", PStr "deleted")])] not_found) repr_any
    world0
  = (Returned PNone,
     log (Http delete_session_0 (reply 200 (PDict [("msg", PStr "deleted")]))) world0)
  /\ remove_session (scripted [] not_found) repr_any world0
     = (Raised (SessionRemovalError 404), log (Http delete_session_0 not_found) world0).
Proof.
  split.
  - destruct (remove_session_outcome
                (scripted [reply 200 (PDict [("msg", PStr "deleted")])] not_found) repr_any
                world0 (PStr "http://livy:8998") (PStr "0") json_headers
                eq_refl eq_refl eq_refl) as [Hok _].
    apply Hok. reflexivity.
  - destruct (remove_session_outcome (scripted [] not_found) repr_any
                world0 (PStr "http://livy:8998") (PStr "0") json_headers
                eq_refl eq_refl eq_refl) as [_ Hfail].
    apply Hfail. discriminate.
Defined.

Lemma submit_statement_outcome_witness :
  submit_statement (scripted [not_found] not_found) dumps_any repr_any 3 (PStr "1+1") world0
  = (Raised (StatementSubmissionError 404), log (Http post_statement not_found) world0)
  /\ submit_statement
       (scripted [reply 201 (PDict [("id", PStr "5")]);
                  statement_done "ok" (PDict [("text/plain", PStr "2")])] not_found)
       dumps_any repr_any 3 (PStr "1+1") world0
     = get_output
         (scripted [reply 201 (PDict [("id", PStr "5")]);
                    statement_done "ok" (PDict [("text/plain", PStr "2")])] not_found)
         repr_any 3 (PStr "5")
         (log (Http post_statement (reply 201 (PDict [("id", PStr "5")]))) world0).
Proof.
  split.
  - destruct (submit_statement_outcome (scripted [not_found] not_found) dumps_any repr_any
                world0 (PStr "http://livy:8998") (PStr "0") json_headers (PStr "1+1") 3%nat
                eq_refl eq_refl eq_refl) as (Hrejected & _ & _).
    apply Hrejected. discriminate.
  - destruct (submit_statement_outcome
                (scripted [reply 201 (PDict [("id", PStr "5")]);
                           statement_done "ok" (PDict [("text/plain", PStr "2")])] not_found)
                dumps_any repr_any
                world0 (PStr "http://livy:8998") (PStr "0") json_headers (PStr "1+1") 3%nat
                eq_refl eq_refl eq_refl) as (_ & _ & Hcreated).
    apply (Hcreated eq_refl [("id", PStr "5")] (PStr "5") eq_refl eq_refl).
Defined.

(** ** The end-to-end scenarios of the specification *)

(** Creation answered 201 with id 0, then [starting], then [idle]. *)
Example scenario_create_then_idle :
  create_session
    (scripted [reply 201 (PDict [("id", PStr "0")]); session_in "starting"; session_in "idle"]
       not_found)
    dumps_any repr_any 2 world0
  = (Returned (PStr "0"),
     {| self := client0;
        trace := [Http post_session (reply 201 (PDict [("id", PStr "0")]));
                  Http get_session_0 (session_in "starting");
                  Sleep 15;
                  Http get_session_0 (session_in "idle")] |}).
Proof. vm_compute. reflexivity. Qed.

(** Creation answered 201, then [error]. *)
Example scenario_create_then_error :
  fst (create_session
         (scripted [reply 201 (PDict [("id", PStr "0")]); session_in "error"] not_found)
         dumps_any repr_any 1 world0)
  = Raised SessionInitializationError.
Proof. vm_compute. reflexivity. Qed.

(** The identifier may be a JSON number: it is formatted in decimal. *)
Example scenario_create_numeric_id :
  create_session
    (scripted [reply 201 (PDict [("id", PInt 12)]); session_in "idle"] not_found)
    dumps_any repr_any 1 world0
  = (Returned (PInt 12),
     {| self := client0;
        trace := [Http post_session (reply 201 (PDict [("id", PInt 12)]));
                  Http (mkRequest GET "http://livy:8998/sessions/12" None json_headers)
                       (session_in "idle")] |}).
Proof. vm_compute. reflexivity. Qed.

(** [submit_statement("1+1")] answered 201 with id 5, then [available]
    with the text 2. *)
Example scenario_submit :
  fst (submit_statement
         (scripted [reply 201 (PDict [("id", PStr "5")]);
                    statement_done "ok" (PDict [("text/plain", PStr "2")])] not_found)
         dumps_any repr_any 1 (PStr "1+1") world0)
  = Returned (PStr "2").
Proof. vm_compute. reflexivity. Qed.

(** [remove_session()] answered 404. *)
Example scenario_remove_not_found :
  fst (remove_session (scripted [] not_found) repr_any world0)
  = Raised (HTTPError "Livy Error: Session Delete API failed with status code 404.").
Proof. vm_compute. reflexivity. Qed.

(** The constructor against the service of the first scenario: nothing is
    sent. *)
Example scenario_construct :
  LivyInteractiveSessionClient
    (scripted [reply 201 (PDict [("id", PStr "0")]); session_in "starting"; session_in "idle"]
       not_found)
    dumps_any repr_any 2 (PStr "http://livy:8998") (PDict []) (PList []) []
  = (Raised (AttributeError "headers"),
     {| self := <["config" := PDict []]>
                  (<["jars" := PList []]> (<["livy_url" := PStr "http://livy:8998"]> ∅));
        trace := [] |}).
Proof. vm_compute. reflexivity. Qed.

(** A statement that stays in a state the loop does not know is polled
    again at once, without sleeping. *)
Example scenario_unknown_state_polls_again :
  get_output (scripted [] (statement_in "cancelled")) repr_any 3 (PStr "5") world0
  = (Pending,
     {| self := client0;
        trace := [Http get_statement_5 (statement_in "cancelled");
                  Http get_statement_5 (statement_in "cancelled");
                  Http get_statement_5 (statement_in "cancelled")] |}).
Proof. vm_compute. reflexivity. Qed.

(** ** The further properties at work on concrete services *)

Lemma get_output_in_progress_step_witness :
  get_output_poll (scripted [statement_in "running"] not_found) repr_any (PStr "5") world0
  = (Returned None,
     log (Sleep 15) (log (Http get_statement_5 (statement_in "running")) world0)).
Proof.
  apply (get_output_in_progress_step (scripted [statement_in "running"] not_found) repr_any
           world0 (PStr "http://livy:8998") (PStr "0") json_headers (PStr "5")
           eq_refl eq_refl eq_refl).
  left. reflexivity.
Defined.

Lemma get_output_waits_while_in_progress_witness :
  let r := get_output (always (statement_in "waiting")) repr_any 4 (PStr "5") world0 in
  fst r = Pending
  /\ requests_sent (trace (snd r)) = 4%nat
  /\ time_slept (trace (snd r)) = 60.
Proof.
  apply (get_output_waits_while_in_progress (always (statement_in "waiting")) repr_any
           (PStr "http://livy:8998") (PStr "0") json_headers (PStr "5")
           (fun _ => or_intror eq_refl) 4%nat world0 eq_refl eq_refl eq_refl).
Defined.

Lemma get_output_spins_on_unhandled_state_witness :
  let r := get_output (always (statement_in "cancelled")) repr_any 4 (PStr "5") world0 in
  fst r = Pending
  /\ requests_sent (trace (snd r)) = 4%nat
  /\ time_slept (trace (snd r)) = 0.
Proof.
  apply (get_output_spins_on_unhandled_state (always (statement_in "cancelled")) repr_any
           (PStr "http://livy:8998") (PStr "0") json_headers (PStr "5")).
  - intros t. exists (PStr "cancelled"). repeat split; discriminate.
  - reflexivity.
  - reflexivity.
  - reflexivity.
Defined.

Lemma create_session_returns_after_rounds_witness :
  create_session
    (scripted [reply 201 (PDict [("id", PStr "0")]); session_in "starting"; session_in "idle"]
       not_found)
    dumps_any repr_any 2 world0
  = (Returned (PStr "0"),
     {| self := client0;
        trace := [Http post_session (reply 201 (PDict [("id", PStr "0")]));
                  Http get_session_0 (session_in "starting");
                  Sleep 15;
                  Http get_session_0 (session_in "idle")] |}).
Proof.
  apply (create_session_returns_after_rounds
           (scripted [reply 201 (PDict [("id", PStr "0")]); session_in "starting";
                      session_in "idle"] not_found)
           dumps_any repr_any world0 (PList []) (PDict []) (PStr "http://livy:8998")
           json_headers (PStr "0") [("id", PStr "0")] 1%nat 2%nat
           eq_refl eq_refl eq_refl eq_refl eq_refl eq_refl eq_refl).
  - intros i Hi. destruct i as [| i]; [left; reflexivity | lia].
  - reflexivity.
  - lia.
Defined.

Lemma get_output_returns_after_rounds_witness :
  get_output
    (scripted [statement_in "running"; statement_done "ok" (PDict [("text/plain", PStr "2")])]
       not_found)
    repr_any 2 (PStr "5") world0
  = (Returned (PStr "2"),
     {| self := client0;
        trace := [Http get_statement_5 (statement_in "running");
                  Sleep 15;
                  Http get_statement_5
                    (statement_done "ok" (PDict [("text/plain", PStr "2")]))] |}).
Proof.
  apply (get_output_returns_after_rounds
           (scripted [statement_in "running";
                      statement_done "ok" (PDict [("text/plain", PStr "2")])] not_found)
           repr_any world0 (PStr "http://livy:8998") (PStr "0") json_headers (PStr "5")
           [("id", PStr "5"); ("state", PStr "available");
            ("output", PDict [("status", PStr "ok");
                              ("data", PDict [("text/plain", PStr "2")])])]
           [("status", PStr "ok"); ("data", PDict [("text/plain", PStr "2")])]
           [("text/plain", PStr "2")] 1%nat 2%nat eq_refl eq_refl eq_refl).
  - intros i Hi. destruct i as [| i]; [left; reflexivity | lia].
  - reflexivity.
  - reflexivity.
  - reflexivity.
  - reflexivity.
  - reflexivity.
  - lia.
Defined.

Lemma get_output_returned_from_available_ok_witness :
  exists u s h (evs : list event) d out dat,
    self world0 !! "livy_url" = Some u /\
    self world0 !! "session_id" = Some s /\
    self world0 !! "headers" = Some h /\
    let srv := scripted [statement_in "running";
                         statement_done "ok" (PDict [("text/plain", PStr "2")])] not_found in
    let rq := mkRequest GET (str repr_any u +:+ "/sessions/" +:+ str repr_any s
                             +:+ "/statements/" +:+ str repr_any (PStr "5")) None h in
    let t := (trace world0 ++ evs)%list in
    let rs := srv t rq in
    {| self := client0;
       trace := [Http get_statement_5 (statement_in "running");
                 Sleep 15;
                 Http get_statement_5
                   (statement_done "ok" (PDict [("text/plain", PStr "2")]))] |}
    = {| self := self world0; trace := (t ++ [Http rq rs])%list |} /\
    json_body rs = Some (PDict d) /\
    dict_lookup "state" d = Some (PStr "available") /\
    dict_lookup "output" d = Some (PDict out) /\
    dict_lookup "status" out = Some (PStr "ok") /\
    dict_lookup "data" out = Some (PDict dat) /\
    PStr "2" = default PNone (dict_lookup "text/plain" dat).
Proof.
  apply (get_output_returned_from_available_ok
           (scripted [statement_in "running";
                      statement_done "ok" (PDict [("text/plain", PStr "2")])] not_found)
           repr_any 2%nat (PStr "5") world0).
  vm_compute. reflexivity.
Defined.

Lemma create_session_returned_after_idle_witness :
  exists j c u h (evs : list event) d,
    self world0 !! "jars" = Some j /\
    self world0 !! "config" = Some c /\
    self world0 !! "livy_url" = Some u /\
    self world0 !! "headers" = Some h /\
    let srv := scripted [reply 201 (PDict [("id", PStr "0")]); session_in "idle"] not_found in
    let data := PDict [("kind", PStr "spark"); ("proxyUser", PStr "hadoop");
                       ("jars", j); ("conf", c)] in
    let post := mkRequest POST (str repr_any u +:+ "/sessions") (Some (dumps_any data)) h in
    let created := srv (trace world0) post in
    status_code created = codes_created /\
    json_body created = Some (PDict d) /\
    dict_lookup "id" d = Some (PStr "0") /\
    let poll := mkRequest GET (str repr_any u +:+ "/sessions/" +:+ str repr_any (PStr "0"))
                          None h in
    let t := (trace world0 ++ Http post created :: evs)%list in
    {| self := client0;
       trace := [Http post_session (reply 201 (PDict [("id", PStr "0")]));
                 Http get_session_0 (session_in "idle")] |}
    = {| self := self world0; trace := (t ++ [Http poll (srv t poll)])%list |} /\
    reported_state (srv t poll) = Some (PStr "idle").
Proof.
  apply (create_session_returned_after_idle
           (scripted [reply 201 (PDict [("id", PStr "0")]); session_in "idle"] not_found)
           dumps_any repr_any 1%nat world0).
  vm_compute. reflexivity.
Defined.

Lemma no_request_without_attributes_witness :
  remove_session (always not_found) repr_any world_unfinished
  = (Raised (AttributeError "session_id"), world_unfinished)
  /\ submit_statement (always not_found) dumps_any repr_any 3 (PStr "5") world_unfinished
     = (Raised (AttributeError "session_id"), world_unfinished)
  /\ get_output (always not_found) repr_any 4 (PStr "5") world_unfinished
     = (Raised (AttributeError "session_id"), world_unfinished).
Proof.
  apply (no_request_without_attributes (always not_found) dumps_any repr_any
           world_unfinished 3%nat (PStr "5")).
  right. left. reflexivity.
Defined.

Lemma create_session_without_attributes_witness :
  create_session (always not_found) dumps_any repr_any 3 world_unfinished
  = (Raised (AttributeError "headers"), world_unfinished).
Proof.
  apply (create_session_without_attributes (always not_found) dumps_any repr_any
           world_unfinished 3%nat).
  right. right. right. reflexivity.
Defined.

Lemma create_session_created_without_id_witness :
  create_session (always (reply 201 (PDict [("msg", PStr "ok")]))) dumps_any repr_any 3 world0
  = (Raised (KeyError "id"),
     log (Http post_session (reply 201 (PDict [("msg", PStr "ok")]))) world0)
  /\ create_session (always (mkResponse 201 None)) dumps_any repr_any 3 world0
     = (Raised JSONDecodeError, log (Http post_session (mkResponse 201 None)) world0)
  /\ create_session (always (reply 201 (PList []))) dumps_any repr_any 3 world0
     = (Raised TypeError, log (Http post_session (reply 201 (PList []))) world0).
Proof.
  split; [| split].
  - destruct (create_session_created_without_id
                (always (reply 201 (PDict [("msg", PStr "ok")]))) dumps_any repr_any
                world0 (PList []) (PDict []) (PStr "http://livy:8998") json_headers 3%nat
                eq_refl eq_refl eq_refl eq_refl eq_refl) as (_ & _ & Hkey).
    apply (Hkey [("msg", PStr "ok")] eq_refl eq_refl).
  - destruct (create_session_created_without_id
                (always (mkResponse 201 None)) dumps_any repr_any
                world0 (PList []) (PDict []) (PStr "http://livy:8998") json_headers 3%nat
                eq_refl eq_refl eq_refl eq_refl eq_refl) as (Hjson & _ & _).
    apply (Hjson eq_refl).
  - destruct (create_session_created_without_id
                (always (reply 201 (PList []))) dumps_any repr_any
                world0 (PList []) (PDict []) (PStr "http://livy:8998") json_headers 3%nat
                eq_refl eq_refl eq_refl eq_refl eq_refl) as (_ & Htype & _).
    apply (Htype (PList []) eq_refl). discriminate.
Defined.

Lemma submit_statement_created_without_id_witness :
  submit_statement (always (reply 201 (PDict [("msg", PStr "ok")]))) dumps_any repr_any 3
    (PStr "1+1") world0
  = (Raised (KeyError "id"),
     log (Http post_statement (reply 201 (PDict [("msg", PStr "ok")]))) world0)
  /\ submit_statement (always (mkResponse 201 None)) dumps_any repr_any 3 (PStr "1+1") world0
     = (Raised JSONDecodeError, log (Http post_statement (mkResponse 201 None)) world0).
Proof.
  split.
  - destruct (submit_statement_created_without_id
                (always (reply 201 (PDict [("msg", PStr "ok")]))) dumps_any repr_any
                world0 (PStr "http://livy:8998") (PStr "0") json_headers (PStr "1+1") 3%nat
                eq_refl eq_refl eq_refl eq_refl) as (_ & _ & Hkey).
    apply (Hkey [("msg", PStr "ok")] eq_refl eq_refl).
  - destruct (submit_statement_created_without_id
                (always (mkResponse 201 None)) dumps_any repr_any
                world0 (PStr "http://livy:8998") (PStr "0") json_headers (PStr "1+1") 3%nat
                eq_refl eq_refl eq_refl eq_refl) as (Hjson & _ & _).
    apply (Hjson eq_refl).
Defined.

Lemma get_output_malformed_poll_witness :
  get_output (always not_found) repr_any 1 (PStr "5") world0
  = (Raised JSONDecodeError, log (Http get_statement_5 not_found) world0)
  /\ get_output (always (statement_in "available")) repr_any 1 (PStr "5") world0
     = (Raised (AttributeError "get"),
        log (Http get_statement_5 (statement_in "available")) world0)
  /\ get_output (always (statement_done "ok" PNone)) repr_any 1 (PStr "5") world0
     = (Raised (AttributeError "get"),
        log (Http get_statement_5 (statement_done "ok" PNone)) world0).
Proof.
  split; [| split].
  - destruct (get_output_malformed_poll (always not_found) repr_any
                world0 (PStr "http://livy:8998") (PStr "0") json_headers (PStr "5") 0%nat
                eq_refl eq_refl eq_refl) as (Hjson & _).
    apply (Hjson eq_refl).
  - destruct (get_output_malformed_poll (always (statement_in "available")) repr_any
                world0 (PStr "http://livy:8998") (PStr "0") json_headers (PStr "5") 0%nat
                eq_refl eq_refl eq_refl) as (_ & _ & Hout & _).
    apply (Hout [("id", PStr "5"); ("state", PStr "available")] eq_refl eq_refl).
    discriminate.
  - destruct (get_output_malformed_poll (always (statement_done "ok" PNone)) repr_any
                world0 (PStr "http://livy:8998") (PStr "0") json_headers (PStr "5") 0%nat
                eq_refl eq_refl eq_refl) as (_ & _ & _ & Hdata).
    apply (Hdata [("id", PStr "5"); ("state", PStr "available");
                  ("output", PDict [("status", PStr "ok"); ("data", PNone)])]
                 [("status", PStr "ok"); ("data", PNone)]
                 eq_refl eq_refl eq_refl eq_refl).
    discriminate.
Defined.

Lemma create_session_malformed_poll_witness :
  while_true 1 (create_session_poll (always not_found) repr_any (PStr "0")) world0
  = (Raised JSONDecodeError, log (Http get_session_0 not_found) world0)
  /\ while_true 1 (create_session_poll (always (reply 200 (PStr "idle"))) repr_any (PStr "0"))
       world0
     = (Raised (AttributeError "get"),
        log (Http get_session_0 (reply 200 (PStr "idle"))) world0).
Proof.
  split.
  - destruct (create_session_malformed_poll (always not_found) repr_any
                world0 (PStr "http://livy:8998") json_headers (PStr "0") 0%nat
                eq_refl eq_refl) as (Hjson & _).
    apply (Hjson eq_refl).
  - destruct (create_session_malformed_poll (always (reply 200 (PStr "idle"))) repr_any
                world0 (PStr "http://livy:8998") json_headers (PStr "0") 0%nat
                eq_refl eq_refl) as (_ & Hobj).
    apply (Hobj (PStr "idle") eq_refl). discriminate.
Defined.

Lemma create_session_waits_while_starting_witness :
  let r := create_session (creating (session_in "starting")) dumps_any repr_any 5 world0 in
  fst r = Pending
  /\ requests_sent (trace (snd r)) = 6%nat
  /\ time_slept (trace (snd r)) = 75.
Proof.
  apply (create_session_waits_while_starting (creating (session_in "starting"))
           dumps_any repr_any world0 (PList []) (PDict []) (PStr "http://livy:8998")
           json_headers (PStr "0") [("id", PStr "0")] 5%nat
           eq_refl eq_refl eq_refl eq_refl eq_refl eq_refl eq_refl
           (fun _ => or_introl eq_refl)).
Defined.
